(** * PiGardener: the hardware control loop of [main_controller.py]

    A shallow embedding of [run_hardware_loop] (one iteration of its
    [while] loop is one tick), of [toggle_relay], of the settings loader
    and of the part of the HTTP surface that writes settings, followed
    by the properties of the control engines.

    Modelling conventions.
    - Python floats are IEEE 754 binary64 numbers ([pyfloat]): the
      arithmetic and the comparisons are those of the standard, rounded
      to nearest, ties to even, with signed zeros, the two infinities
      and NaN.  Instants returned by [time.monotonic()] and sensor
      values are floats; a sensor that reports an int reports the float
      of the same value.
    - Strings are ASCII [string]s.
    - The module-level dictionary [hardware_state], the relay outputs,
      the SQLite tables and a journal of the persistence calls form one
      [World] that every tick threads through a state-and-exception
      monad.  An exception that nothing catches locally reaches the
      [except Exception] of the loop: the tick is abandoned and what was
      mutated before stays mutated.
    - Lines printed on stdout are not modelled. *)

From Stdlib Require Import ZArith Ascii String List Bool Lia.
From Stdlib Require Import SpecFloat.
From stdpp Require Import base option gmap strings list pretty.

Local Open Scope string_scope.
Local Open Scope Z_scope.

(** ** Python numbers *)

(** binary64: 53 bits of precision, exponents below 1024. *)
Definition pyfloat : Type := spec_float.

Definition prec : Z := 53.
Definition emax : Z := 1024.

(** [a + b], [a - b] and [a / b] on floats. *)
Definition fadd (a b : pyfloat) : pyfloat := SFadd prec emax a b.

Definition fsub (a b : pyfloat) : pyfloat := SFsub prec emax a b.

Definition fdiv (a b : pyfloat) : pyfloat := SFdiv prec emax a b.

(** [a < b], [a <= b], [a > b] and [a >= b] on floats; every comparison
    with NaN is false. *)
Definition flt (a b : pyfloat) : bool := SFltb a b.

Definition fle (a b : pyfloat) : bool := SFleb a b.

Definition fgt (a b : pyfloat) : bool := SFltb b a.

Definition fge (a b : pyfloat) : bool := SFleb b a.

(** The float nearest to the int [z]; an infinity when [z] is beyond
    the range. *)
Definition float_of_int (z : Z) : pyfloat := binary_normalize prec emax z 0 false.

(** The float nearest to [n / d], with the sign [neg]: the quotient is
    taken with as many bits as the division of two floats takes, and
    rounded once. *)
Definition float_of_ratio (neg : bool) (n d : positive) : pyfloat :=
  let '(q, e, l) := SFdiv_core_binary prec emax (Zpos n) 0 (Zpos d) 0 in
  binary_round_aux prec emax neg q e l.

(** The float nearest to [m * 10 ^ e] for [0 <= m], with the sign [neg].
    Beyond [10 ^ 310] every value rounds to an infinity and below
    [10 ^ -330] to a zero; the two tests only keep the powers of ten
    small. *)
Definition float_of_decimal (neg : bool) (m e : Z) : pyfloat :=
  match m with
  | Zpos p =>
      if 310 <? e then S754_infinity neg
      else if e + Z.log2 m + 1 <? -330 then S754_zero neg
      else if 0 <=? e then float_of_ratio neg (p * Z.to_pos (10 ^ e)) 1
      else float_of_ratio neg p (Z.to_pos (10 ^ (- e)))
  | _ => S754_zero neg
  end.

(** An int where a float is expected is its float, as in Python's mixed
    arithmetic. *)
Coercion float_of_int : Z >-> pyfloat.

Arguments fadd : simpl never.
Arguments fsub : simpl never.
Arguments fdiv : simpl never.
Arguments flt : simpl never.
Arguments fle : simpl never.
Arguments fgt : simpl never.
Arguments fge : simpl never.
Arguments float_of_int : simpl never.
Arguments float_of_decimal : simpl never.

(** The values the loader leaves in [app_settings], and the defaults
    passed to [dict.get]. *)
Inductive pyval : Type :=
| VInt (z : Z)
| VFloat (f : pyfloat)
| VStr (s : string).

(** [v == "literal"]: an int or a float never equals a string. *)
Definition val_is (v : pyval) (s : string) : bool :=
  match v with
  | VStr t => String.eqb t s
  | _ => false
  end.

(** ** [int(str)] and [float(str)] *)

Definition is_digit (c : ascii) : bool :=
  let n := nat_of_ascii c in (48 <=? n)%nat && (n <=? 57)%nat.

Definition digit_val (c : ascii) : Z := Z.of_nat (nat_of_ascii c) - 48.

(** The white space that [int] and [float] skip around an ASCII
    literal: tab, line feed, vertical tab, form feed, carriage return
    and space. *)
Definition is_space (c : ascii) : bool :=
  let n := nat_of_ascii c in
  ((9 <=? n)%nat && (n <=? 13)%nat) || (n =? 32)%nat.

Fixpoint lstrip (cs : list ascii) : list ascii :=
  match cs with
  | c :: r => if is_space c then lstrip r else cs
  | [] => []
  end.

Definition strip (cs : list ascii) : list ascii :=
  rev (lstrip (rev (lstrip cs))).

(** An underscore is accepted only between two digits and is dropped;
    [prev] is the character before [cs]. *)
Fixpoint drop_underscores (prev : option ascii) (cs : list ascii)
  : option (list ascii) :=
  match cs with
  | [] => Some []
  | c :: r =>
      if Ascii.eqb c "_" then
        match prev, r with
        | Some p, n :: _ =>
            if is_digit p && is_digit n then drop_underscores (Some c) r else None
        | _, _ => None
        end
      else option_map (cons c) (drop_underscores (Some c) r)
  end.

Definition split_sign (cs : list ascii) : bool * list ascii :=
  match cs with
  | c :: r =>
      if Ascii.eqb c "-" then (true, r)
      else if Ascii.eqb c "+" then (false, r)
      else (false, cs)
  | [] => (false, [])
  end.

(** Value of a run of decimal digits; [None] on any other character. *)
Fixpoint digits_val (acc : Z) (cs : list ascii) : option Z :=
  match cs with
  | [] => Some acc
  | c :: r => if is_digit c then digits_val (10 * acc + digit_val c) r else None
  end.

Definition nonempty_digits (cs : list ascii) : option Z :=
  match cs with
  | [] => None
  | _ => digits_val 0 cs
  end.

(** [sys.get_int_max_str_digits()], as the interpreter starts. *)
Definition int_max_str_digits : nat := 4300.

(** [int(s)] in base ten; [None] stands for [ValueError], which is also
    what a literal of more than [int_max_str_digits] digits raises. *)
Definition int_of_str (s : string) : option Z :=
  let '(neg, body) := split_sign (strip (list_ascii_of_string s)) in
  match drop_underscores None body with
  | Some ds =>
      if (int_max_str_digits <? length ds)%nat then None
      else
        match nonempty_digits ds with
        | Some n => Some (if neg then - n else n)
        | None => None
        end
  | None => None
  end.

Definition lower (c : ascii) : ascii :=
  let n := nat_of_ascii c in
  if (65 <=? n)%nat && (n <=? 90)%nat then ascii_of_nat (n + 32) else c.

Fixpoint span_digits (cs : list ascii) : list ascii * list ascii :=
  match cs with
  | c :: r =>
      if is_digit c then let '(d, rest) := span_digits r in (c :: d, rest)
      else ([], cs)
  | [] => ([], [])
  end.

(** The exponent part: nothing, or [e]/[E], an optional sign and at
    least one digit, up to the end of the literal. *)
Definition exponent_of (cs : list ascii) : option Z :=
  match cs with
  | [] => Some 0
  | c :: r =>
      if Ascii.eqb (lower c) "e" then
        let '(neg, ds) := split_sign r in
        match nonempty_digits ds with
        | Some n => Some (if neg then - n else n)
        | None => None
        end
      else None
  end.

(** A decimal literal: [digits [. [digits]] [exponent]] or
    [. digits [exponent]], as the pair [(m, e)] that stands for
    [m * 10 ^ e]. *)
Definition decimal_of (cs : list ascii) : option (Z * Z) :=
  let '(ip, r1) := span_digits cs in
  let '(fp, r2) :=
    match r1 with
    | c :: r => if Ascii.eqb c "." then span_digits r else ([], r1)
    | [] => ([], [])
    end in
  match (ip ++ fp)%list with
  | [] => None
  | ds =>
      match digits_val 0 ds, exponent_of r2 with
      | Some m, Some e => Some (m, e - Z.of_nat (length fp))
      | _, _ => None
      end
  end.

(** [float(s)]; [None] stands for [ValueError].  A literal beyond the
    range is an infinity, not an error. *)
Definition float_of_str (s : string) : option pyfloat :=
  match drop_underscores None (strip (list_ascii_of_string s)) with
  | None => None
  | Some cs =>
      let '(neg, body) := split_sign cs in
      let word := string_of_list_ascii (map lower body) in
      if String.eqb word "inf" || String.eqb word "infinity" then Some (S754_infinity neg)
      else if String.eqb word "nan" then Some S754_nan
      else
        match decimal_of body with
        | Some (m, e) => Some (float_of_decimal neg m e)
        | None => None
        end
  end.

(** A float literal of the source text. *)
Definition float_literal (s : string) : pyfloat := default S754_nan (float_of_str s).

Arguments float_literal : simpl never.

(** [float(v)] for a value of [app_settings]; [None] stands for the
    [ValueError] of a string that is no literal and for the
    [OverflowError] of an int beyond the range. *)
Definition py_float (v : pyval) : option pyfloat :=
  match v with
  | VInt z =>
      match float_of_int z with
      | S754_infinity _ => None
      | f => Some f
      end
  | VFloat f => Some f
  | VStr s => float_of_str s
  end.

(** Lines 212-220: the conversion applied to every row of [settings]. *)
Definition convert_value (value : string) : pyval :=
  if bool_decide (is_Some (index 0 "." value)) then
    match float_of_str value with
    | Some f => VFloat f
    | None => VStr value
    end
  else
    match int_of_str value with
    | Some z => VInt z
    | None => VStr value
    end.

(** ** Times of day *)

Record pytime : Type := mk_time {
  hour : Z;
  minute : Z;
  second : Z;
  microsecond : Z
}.

(** [datetime.time] compares the tuples (hour, minute, second,
    microsecond). *)
Definition time_cmp (a b : pytime) : comparison :=
  match hour a ?= hour b with
  | Eq =>
      match minute a ?= minute b with
      | Eq =>
          match second a ?= second b with
          | Eq => microsecond a ?= microsecond b
          | c => c
          end
      | c => c
      end
  | c => c
  end.

Definition time_le (a b : pytime) : bool :=
  match time_cmp a b with Gt => false | _ => true end.

Definition time_lt (a b : pytime) : bool :=
  match time_cmp a b with Lt => true | _ => false end.

Definition time_ge (a b : pytime) : bool := time_le b a.

(** [%H] is the regular expression [2[0-3]|[0-1]\d|\d]. *)
Definition parse_H (cs : list ascii) : option (Z * list ascii) :=
  match cs with
  | a :: b :: r =>
      if Ascii.eqb a "2" && is_digit b && (digit_val b <=? 3)
      then Some (20 + digit_val b, r)
      else if is_digit a && (digit_val a <=? 1) && is_digit b
      then Some (10 * digit_val a + digit_val b, r)
      else if is_digit a then Some (digit_val a, b :: r)
      else None
  | [a] => if is_digit a then Some (digit_val a, []) else None
  | [] => None
  end.

(** [%M] is the regular expression [[0-5]\d|\d]. *)
Definition parse_M (cs : list ascii) : option (Z * list ascii) :=
  match cs with
  | a :: b :: r =>
      if is_digit a && (digit_val a <=? 5) && is_digit b
      then Some (10 * digit_val a + digit_val b, r)
      else if is_digit a then Some (digit_val a, b :: r)
      else None
  | [a] => if is_digit a then Some (digit_val a, []) else None
  | [] => None
  end.

(** [datetime.datetime.strptime(s, "%H:%M").time()]; [None] stands for
    [ValueError] (no match, or unconverted data remains). *)
Definition strptime_HM (s : string) : option pytime :=
  match parse_H (list_ascii_of_string s) with
  | Some (h, c :: r) =>
      if Ascii.eqb c ":" then
        match parse_M r with
        | Some (m, []) => Some (mk_time h m 0 0)
        | _ => None
        end
      else None
  | _ => None
  end.

(** [strptime(str(v), "%H:%M").time()].  [str] of an int or of a float
    has no colon, so only a string value can match the format. *)
Definition time_of_val (v : pyval) : option pytime :=
  match v with
  | VStr s => strptime_HM s
  | _ => None
  end.

(** Lines 231-234. *)
Definition schedule_on (now on_time off_time : pytime) : bool :=
  if time_le on_time off_time
  then time_le on_time now && time_lt now off_time
  else time_ge now on_time || time_lt now off_time.

(** ** Pins, relays and the module-level state *)

Definition LIGHTS_PINS : list Z := [6; 7; 8; 9; 20; 21].
Definition PUMPS_PINS : list Z := [27; 5; 10; 11; 12].
Definition EXHAUST_FANS_PINS : list Z := [13; 16].
Definition CIRCULATION_FANS_PINS : list Z := [19; 26].
Definition FLOAT_SENSORS_PINS : list Z := [17; 23; 24].
Definition OVERFLOW_SENSOR_PIN : Z := 25.
Definition SOLENOID_RELAY_PIN : Z := 22.

Definition relay_pins : list Z :=
  (LIGHTS_PINS ++ PUMPS_PINS ++ EXHAUST_FANS_PINS ++ CIRCULATION_FANS_PINS
     ++ [SOLENOID_RELAY_PIN])%list.

(** Relays are LOW-triggered: LOW is ON. *)
Inductive level : Type := LOW | HIGH.

Definition is_low (l : level) : bool :=
  match l with LOW => true | HIGH => false end.

Inductive WaterError : Type := timeout | reservoir_empty | overflow.

Definition WaterError_eqb (a b : WaterError) : bool :=
  match a, b with
  | timeout, timeout | reservoir_empty, reservoir_empty | overflow, overflow => true
  | _, _ => false
  end.

(** The dictionary [hardware_state] (lines 158-171). *)
Record HardwareState : Type := mk_hardware_state {
  pumps_on : list bool;
  last_pumps_toggle : list pyfloat;
  lights_on : list bool;
  last_lights_toggle : list pyfloat;
  exhaust_fans_on : list bool;
  last_exhaust_fans_toggle : list pyfloat;
  circulation_fans_on : list bool;
  last_circulation_fans_toggle : list pyfloat;
  solenoid_on : bool;
  solenoid_start_time : option pyfloat;
  water_error : option WaterError;
  last_sensor_log_time : pyfloat
}.

(** A row of [sensor_readings] and of [latest_state]. *)
Record TelemetryRow : Type := mk_row {
  temperature : pyfloat;
  humidity : pyfloat;
  waterLevelOK : Z;
  floater1 : Z;
  floater2 : Z;
  floater3 : Z
}.

(** Persistence calls issued by the loop, with their success. *)
Inductive db_call : Type :=
| TelemetryWrite (row : TelemetryRow) (ok : bool)
| ModeReset (ok : bool).

Record World : Type := mk_world {
  hardware_state : HardwareState;
  (** channels set up as outputs, with the level they drive *)
  gpio_out : gmap Z level;
  (** table [settings] *)
  settings : gmap string string;
  (** table [sensor_readings], oldest row first *)
  sensor_readings : list TelemetryRow;
  (** table [latest_state], by key *)
  latest_state : gmap string TelemetryRow;
  journal : list db_call
}.

(** One DHT device read on one tick: both attributes, or an exception. *)
Inductive dht_result : Type :=
| DhtValues (temp hum : option pyfloat)
| DhtRuntimeError
| DhtOtherError.

(** What the outside world supplies to one tick. *)
Record Env : Type := mk_env {
  (** [datetime.datetime.now().time()] *)
  current_time_for_schedule : pytime;
  (** [time.monotonic()] *)
  monotonic_time : pyfloat;
  dht_devices : list dht_result;
  (** channels set up as inputs, with the level they read *)
  gpio_in : gmap Z level;
  (** whether the [SELECT] of the settings succeeds *)
  db_select_ok : bool;
  (** whether the [UPDATE] that resets [waterSystemMode] succeeds *)
  db_reset_ok : bool;
  (** whether the telemetry transaction succeeds *)
  db_log_ok : bool
}.

Definition set_hardware_state (h : HardwareState) (w : World) : World :=
  mk_world h (gpio_out w) (settings w) (sensor_readings w) (latest_state w)
    (journal w).

Definition set_gpio_out (g : gmap Z level) (w : World) : World :=
  mk_world (hardware_state w) g (settings w) (sensor_readings w)
    (latest_state w) (journal w).

Definition set_pumps_on (l : list bool) (h : HardwareState) : HardwareState :=
  mk_hardware_state l (last_pumps_toggle h) (lights_on h) (last_lights_toggle h)
    (exhaust_fans_on h) (last_exhaust_fans_toggle h) (circulation_fans_on h)
    (last_circulation_fans_toggle h) (solenoid_on h) (solenoid_start_time h)
    (water_error h) (last_sensor_log_time h).

Definition set_last_pumps_toggle (l : list pyfloat) (h : HardwareState) : HardwareState :=
  mk_hardware_state (pumps_on h) l (lights_on h) (last_lights_toggle h)
    (exhaust_fans_on h) (last_exhaust_fans_toggle h) (circulation_fans_on h)
    (last_circulation_fans_toggle h) (solenoid_on h) (solenoid_start_time h)
    (water_error h) (last_sensor_log_time h).

Definition set_circulation_fans_on (l : list bool) (h : HardwareState)
  : HardwareState :=
  mk_hardware_state (pumps_on h) (last_pumps_toggle h) (lights_on h)
    (last_lights_toggle h) (exhaust_fans_on h) (last_exhaust_fans_toggle h) l
    (last_circulation_fans_toggle h) (solenoid_on h) (solenoid_start_time h)
    (water_error h) (last_sensor_log_time h).

Definition set_last_circulation_fans_toggle (l : list pyfloat) (h : HardwareState)
  : HardwareState :=
  mk_hardware_state (pumps_on h) (last_pumps_toggle h) (lights_on h)
    (last_lights_toggle h) (exhaust_fans_on h) (last_exhaust_fans_toggle h)
    (circulation_fans_on h) l (solenoid_on h) (solenoid_start_time h)
    (water_error h) (last_sensor_log_time h).

Definition set_solenoid_on (b : bool) (h : HardwareState) : HardwareState :=
  mk_hardware_state (pumps_on h) (last_pumps_toggle h) (lights_on h)
    (last_lights_toggle h) (exhaust_fans_on h) (last_exhaust_fans_toggle h)
    (circulation_fans_on h) (last_circulation_fans_toggle h) b
    (solenoid_start_time h) (water_error h) (last_sensor_log_time h).

Definition set_solenoid_start_time (t : option pyfloat) (h : HardwareState)
  : HardwareState :=
  mk_hardware_state (pumps_on h) (last_pumps_toggle h) (lights_on h)
    (last_lights_toggle h) (exhaust_fans_on h) (last_exhaust_fans_toggle h)
    (circulation_fans_on h) (last_circulation_fans_toggle h) (solenoid_on h) t
    (water_error h) (last_sensor_log_time h).

Definition set_water_error (e : option WaterError) (h : HardwareState)
  : HardwareState :=
  mk_hardware_state (pumps_on h) (last_pumps_toggle h) (lights_on h)
    (last_lights_toggle h) (exhaust_fans_on h) (last_exhaust_fans_toggle h)
    (circulation_fans_on h) (last_circulation_fans_toggle h) (solenoid_on h)
    (solenoid_start_time h) e (last_sensor_log_time h).

Definition set_last_sensor_log_time (t : pyfloat) (h : HardwareState) : HardwareState :=
  mk_hardware_state (pumps_on h) (last_pumps_toggle h) (lights_on h)
    (last_lights_toggle h) (exhaust_fans_on h) (last_exhaust_fans_toggle h)
    (circulation_fans_on h) (last_circulation_fans_toggle h) (solenoid_on h)
    (solenoid_start_time h) (water_error h) t.

(** ** The state-and-exception monad of a tick *)

Inductive res (A : Type) : Type :=
| Val (a : A)
| Raise.
Arguments Val {A} a.
Arguments Raise {A}.

Definition M (A : Type) : Type := World -> res A * World.

Definition ret {A : Type} (a : A) : M A := fun w => (Val a, w).

Definition bind {A B : Type} (m : M A) (f : A -> M B) : M B :=
  fun w =>
    match m w with
    | (Val a, w') => f a w'
    | (Raise, w') => (Raise, w')
    end.

Notation "'do' x <- m ; k" := (bind m (fun x => k))
  (at level 10, x name, m at level 100, k at level 200).
Notation "'do' ' p <- m ; k" := (bind m (fun x => match x with p => k end))
  (at level 10, p pattern, m at level 100, k at level 200).

Definition raise {A : Type} : M A := fun w => (Raise, w).

Definition get_hw : M HardwareState := fun w => (Val (hardware_state w), w).

Definition modify_hw (f : HardwareState -> HardwareState) : M unit :=
  fun w => (Val tt, set_hardware_state (f (hardware_state w)) w).

(** Nothing to do on this path. *)
Definition pass : M unit := ret tt.

(** An [option] whose [None] is an exception (IndexError, ValueError). *)
Definition or_raise {A : Type} (o : option A) : M A :=
  match o with
  | Some a => ret a
  | None => raise
  end.

(** [l[i]], an IndexError out of range. *)
Definition item {A : Type} (l : list A) (i : nat) : M A := or_raise (l !! i).

(** [for i, x in enumerate(l)], counting from [i]. *)
Fixpoint for_enumerate {A : Type} (i : nat) (l : list A) (body : nat -> A -> M unit)
  : M unit :=
  match l with
  | [] => ret tt
  | x :: r => do _ <- body i x; for_enumerate (S i) r body
  end.

(** ** GPIO and [toggle_relay] *)

(** [GPIO.input(pin)]: an output channel reads back the level it drives;
    a channel that is not set up raises. *)
Definition GPIO_input (env : Env) (w : World) (pin : Z) : option level :=
  match gpio_out w !! pin with
  | Some l => Some l
  | None => gpio_in env !! pin
  end.

(** [GPIO.output(pin, l)]: raises unless the channel is an output. *)
Definition GPIO_output (w : World) (pin : Z) (l : level) : option World :=
  match gpio_out w !! pin with
  | Some _ => Some (set_gpio_out (<[pin := l]> (gpio_out w)) w)
  | None => None
  end.

(** Lines 176-193.  Every exception of the body is caught and answered
    by [False]. *)
Definition toggle_relay (env : Env) (pin : Z) (desired_state_on : bool) : M bool :=
  fun w =>
    match GPIO_input env w pin with
    | None => (Val false, w)
    | Some current_gpio_state =>
        let is_currently_on := is_low current_gpio_state in
        if desired_state_on && negb is_currently_on then
          match GPIO_output w pin LOW with
          | Some w' => (Val true, w')
          | None => (Val false, w)
          end
        else if negb desired_state_on && is_currently_on then
          match GPIO_output w pin HIGH with
          | Some w' => (Val false, w')
          | None => (Val false, w)
          end
        else (Val is_currently_on, w)
    end.

(** A call of [toggle_relay] whose answer is not used. *)
Definition drive_relay (env : Env) (pin : Z) (desired_state_on : bool) : M unit :=
  do _ <- toggle_relay env pin desired_state_on; pass.

(** ** The settings snapshot of a tick *)

(** Lines 203-220.  The [value] column only ever holds [str(...)] of
    what was written, so every row is a string. *)
Definition load_settings (env : Env) : M (gmap string pyval) :=
  fun w =>
    if db_select_ok env then (Val (convert_value <$> settings w), w)
    else (Raise, w).

(** [app_settings.get(key, default)]. *)
Definition setting (app_settings : gmap string pyval) (key : string) (d : pyval)
  : pyval :=
  default d (app_settings !! key).

(** [f"{name}{i+1}"]. *)
Definition numbered (name : string) (i : nat) : string :=
  name +:+ pretty (i + 1)%nat.

(** ** 1. Lights (lines 228-244) *)

Definition lights_control (env : Env) (app_settings : gmap string pyval) : M unit :=
  do on_time <- or_raise (time_of_val (setting app_settings "lightsOnTime" (VStr "06:00")));
  do off_time <- or_raise (time_of_val (setting app_settings "lightsOffTime" (VStr "22:00")));
  let schedule := schedule_on (current_time_for_schedule env) on_time off_time in
  for_enumerate 0 LIGHTS_PINS (fun i pin =>
    let mode := setting app_settings (numbered "lightsMode" i) (VStr "schedule") in
    let should_on :=
      if val_is mode "schedule" then schedule
      else if val_is mode "on" then true
      else false in
    drive_relay env pin should_on).

(** ** 2 and 3. Pumps and circulation fans (lines 247-284)

    The two loops are the same text over two groups of keys; [cycler]
    names the group. *)

Inductive cycler : Type := Pumps | CirculationFans.

#[global] Instance cycler_eq_dec : EqDecision cycler.
Proof. solve_decision. Defined.

Definition cycler_pins (k : cycler) : list Z :=
  match k with Pumps => PUMPS_PINS | CirculationFans => CIRCULATION_FANS_PINS end.

Definition cycler_mode_key (k : cycler) (i : nat) : string :=
  match k with
  | Pumps => numbered "pumpMode" i
  | CirculationFans => numbered "circulationFanMode" i
  end.

Definition cycler_on_duration (k : cycler) (app_settings : gmap string pyval)
  : pyval :=
  match k with
  | Pumps => setting app_settings "pumpOnDuration" (VInt 900)
  | CirculationFans => setting app_settings "circulationFanOnDuration" (VInt 1800)
  end.

Definition cycler_off_duration (k : cycler) (app_settings : gmap string pyval)
  : pyval :=
  match k with
  | Pumps => setting app_settings "pumpOffDuration" (VInt 2700)
  | CirculationFans => setting app_settings "circulationFanOffDuration" (VInt 1800)
  end.

Definition cycler_is_on (k : cycler) (h : HardwareState) : list bool :=
  match k with Pumps => pumps_on h | CirculationFans => circulation_fans_on h end.

Definition cycler_last_toggle (k : cycler) (h : HardwareState) : list pyfloat :=
  match k with
  | Pumps => last_pumps_toggle h
  | CirculationFans => last_circulation_fans_toggle h
  end.

Definition set_cycler_is_on (k : cycler) (l : list bool) (h : HardwareState)
  : HardwareState :=
  match k with
  | Pumps => set_pumps_on l h
  | CirculationFans => set_circulation_fans_on l h
  end.

Definition set_cycler_last_toggle (k : cycler) (l : list pyfloat) (h : HardwareState)
  : HardwareState :=
  match k with
  | Pumps => set_last_pumps_toggle l h
  | CirculationFans => set_last_circulation_fans_toggle l h
  end.

(** [state[k_on][i] = toggle_relay(pin, desired, ...)] followed by
    [state[k_last][i] = monotonic_time]. *)
Definition cycler_flip (env : Env) (k : cycler) (i : nat) (pin : Z) (desired : bool)
  : M unit :=
  do r <- toggle_relay env pin desired;
  do _ <- modify_hw (fun h => set_cycler_is_on k (<[i := r]> (cycler_is_on k h)) h);
  modify_hw (fun h =>
    set_cycler_last_toggle k (<[i := monotonic_time env]> (cycler_last_toggle k h)) h).

(** The body of the loop for channel [i] (lines 251-264, 271-284). *)
Definition cycle_channel (env : Env) (app_settings : gmap string pyval) (k : cycler)
    (on_duration off_duration : pyfloat) (i : nat) (pin : Z) : M unit :=
  let mode := setting app_settings (cycler_mode_key k i) (VStr "cycle") in
  if val_is mode "cycle" then
    do h <- get_hw;
    do is_on <- item (cycler_is_on k h) i;
    do last_toggle <- item (cycler_last_toggle k h) i;
    if is_on then
      if fge (fsub (monotonic_time env) last_toggle) on_duration
      then cycler_flip env k i pin false
      else pass
    else
      if fge (fsub (monotonic_time env) last_toggle) off_duration
      then cycler_flip env k i pin true
      else pass
  else if val_is mode "on" then drive_relay env pin true
  else drive_relay env pin false.

Definition cycle_control (env : Env) (app_settings : gmap string pyval) (k : cycler)
  : M unit :=
  do on_duration <- or_raise (py_float (cycler_on_duration k app_settings));
  do off_duration <- or_raise (py_float (cycler_off_duration k app_settings));
  for_enumerate 0 (cycler_pins k) (cycle_channel env app_settings k on_duration off_duration).

(** ** 4. Sensors and exhaust fans (lines 287-332) *)

(** Lines 290-302: a device contributes when neither attribute raised
    and neither is [None]. *)
Fixpoint read_dht (devices : list dht_result) : list pyfloat * list pyfloat :=
  match devices with
  | [] => ([], [])
  | d :: r =>
      let '(temperatures, humidities) := read_dht r in
      match d with
      | DhtValues (Some temp) (Some hum) => (temp :: temperatures, hum :: humidities)
      | _ => (temperatures, humidities)
      end
  end.

(** [sum(l) / len(l)]: the sum starts from the int 0 and adds from the
    left, and the division is by the float of the length. *)
Definition mean (l : list pyfloat) : pyfloat :=
  fdiv (fold_left fadd l (float_of_int 0)) (float_of_int (Z.of_nat (length l))).

Arguments mean : simpl never.

(** Lines 314-318, with [prev_on] standing for
    [any(hardware_state["exhaust_fans_on"])]. *)
Definition should_auto_on (prev_on : bool) (temperature_c humidity : pyfloat)
    (temp_high temp_low hum_high hum_low : pyfloat) : bool :=
  if fgt temperature_c temp_high || fgt humidity hum_high then true
  else if flt temperature_c temp_low && flt humidity hum_low then false
  else prev_on.

(** Lines 304-306 and 330-331: the averaged reading, [None] when no
    device contributed. *)
Definition aggregate (devices : list dht_result) : option pyfloat * option pyfloat :=
  let '(temperatures, humidities) := read_dht devices in
  match temperatures, humidities with
  | _ :: _, _ :: _ => (Some (mean temperatures), Some (mean humidities))
  | _, _ => (None, None)
  end.

Definition sensors_and_exhaust (env : Env) (app_settings : gmap string pyval)
  : M (option pyfloat * option pyfloat) :=
  match aggregate (dht_devices env) with
  | (Some temperature_c, Some humidity) =>
      do temp_high <- or_raise (py_float (setting app_settings "exhaustFanTempHigh" (VFloat (float_literal "27.0"))));
      do temp_low <- or_raise (py_float (setting app_settings "exhaustFanTempLow" (VFloat (float_literal "23.0"))));
      do hum_high <- or_raise (py_float (setting app_settings "exhaustFanHumidHigh" (VFloat (float_literal "65.0"))));
      do hum_low <- or_raise (py_float (setting app_settings "exhaustFanHumidLow" (VFloat (float_literal "55.0"))));
      do h <- get_hw;
      let auto_on :=
        should_auto_on (existsb id (exhaust_fans_on h)) temperature_c humidity
          temp_high temp_low hum_high hum_low in
      do _ <- for_enumerate 0 EXHAUST_FANS_PINS (fun i pin =>
        let mode := setting app_settings (numbered "exhaustFanMode" i) (VStr "auto") in
        if val_is mode "auto" then drive_relay env pin auto_on
        else if val_is mode "on" then drive_relay env pin true
        else drive_relay env pin false);
      ret (Some temperature_c, Some humidity)
  | _ => ret (None, None)
  end.

(** ** 5. Water level and solenoid (lines 335-385) *)

(** [[GPIO.input(pin) for pin in pins]]. *)
Fixpoint read_inputs (env : Env) (pins : list Z) : M (list level) :=
  match pins with
  | [] => ret []
  | pin :: r =>
      do l <- (fun w => or_raise (GPIO_input env w pin) w);
      do ls <- read_inputs env r;
      ret (l :: ls)
  end.

Definition error_is (h : HardwareState) (e : WaterError) : bool :=
  match water_error h with
  | Some e' => WaterError_eqb e' e
  | None => false
  end.

(** Lines 369-376: the [UPDATE] touches the row only if it exists; a
    failure is caught on the spot. *)
Definition reset_water_mode (env : Env) : M unit :=
  fun w =>
    if db_reset_ok env then
      (Val tt,
       mk_world (hardware_state w) (gpio_out w)
         (alter (fun _ => "auto") "waterSystemMode" (settings w))
         (sensor_readings w) (latest_state w) (journal w ++ [ModeReset true]))
    else
      (Val tt,
       mk_world (hardware_state w) (gpio_out w) (settings w) (sensor_readings w)
         (latest_state w) (journal w ++ [ModeReset false])).

(** Lines 343-376: the value of [should_solenoid_be_on]. *)
Definition should_solenoid_be_on (env : Env) (water_mode : pyval)
    (max_fill_time : pyfloat) (water_level_ok overflow_detected : bool) : M bool :=
  if overflow_detected then
    do _ <- modify_hw (set_water_error (Some overflow)); ret false
  else
    do h <- get_hw;
    match solenoid_on h, solenoid_start_time h with
    | true, Some start =>
        if fgt (fsub (monotonic_time env) start) max_fill_time then
          do _ <- (if negb water_level_ok
                   then modify_hw (set_water_error (Some reservoir_empty))
                   else modify_hw (set_water_error (Some timeout)));
          ret false
        else ret true
    | _, _ =>
        if val_is water_mode "auto" then
          ret (negb water_level_ok && negb (error_is h reservoir_empty))
        else if val_is water_mode "fill" then
          do _ <- reset_water_mode env; ret true
        else ret false
    end.

(** Lines 379-385. *)
Definition update_solenoid (env : Env) (should_on : bool) : M unit :=
  do h <- get_hw;
  let was_on := solenoid_on h in
  do r <- toggle_relay env SOLENOID_RELAY_PIN should_on;
  do _ <- modify_hw (set_solenoid_on r);
  if r && negb was_on then
    do _ <- modify_hw (set_solenoid_start_time (Some (monotonic_time env)));
    modify_hw (set_water_error None)
  else if negb r && was_on then
    modify_hw (set_solenoid_start_time None)
  else pass.

(** Lines 343-385: the decision, then the relay and the bookkeeping. *)
Definition water_engine (env : Env) (water_mode : pyval) (max_fill_time : pyfloat)
    (water_level_ok overflow_detected : bool) : M unit :=
  do should_on <- should_solenoid_be_on env water_mode max_fill_time water_level_ok
                    overflow_detected;
  update_solenoid env should_on.

Definition water_control (env : Env) (app_settings : gmap string pyval)
  : M (bool * list bool) :=
  do floater_states <- read_inputs env FLOAT_SENSORS_PINS;
  let water_levels_ok := is_low <$> floater_states in
  let water_level_ok := forallb id water_levels_ok in
  do overflow_state <- (fun w => or_raise (GPIO_input env w OVERFLOW_SENSOR_PIN) w);
  let overflow_detected := is_low overflow_state in
  let water_mode := setting app_settings "waterSystemMode" (VStr "auto") in
  do max_fill_time <- or_raise (py_float (setting app_settings "maxFillTime" (VInt 600)));
  do _ <- water_engine env water_mode max_fill_time water_level_ok overflow_detected;
  ret (water_level_ok, water_levels_ok).

(** ** 6. Telemetry (lines 388-408) *)

Definition flag (b : bool) : Z := if b then 1 else 0.

(** The tuple bound to the two statements; [None] is the [IndexError]
    of [water_levels_ok[j]], raised inside the [try]. *)
Definition telemetry_row (temperature_c humidity : pyfloat) (water_level_ok : bool)
    (water_levels_ok : list bool) : option TelemetryRow :=
  match water_levels_ok !! 0%nat, water_levels_ok !! 1%nat, water_levels_ok !! 2%nat with
  | Some f1, Some f2, Some f3 =>
      Some (mk_row temperature_c humidity (flag water_level_ok) (flag f1) (flag f2)
              (flag f3))
  | _, _, _ => None
  end.

(** The [INSERT] and the [UPDATE ... WHERE key = 'sensors'] in one
    transaction; the answer tells whether it was committed. *)
Definition db_log (env : Env) (row : TelemetryRow) : M bool :=
  fun w =>
    if db_log_ok env then
      (Val true,
       mk_world (hardware_state w) (gpio_out w) (settings w)
         (sensor_readings w ++ [row]) (alter (fun _ => row) "sensors" (latest_state w))
         (journal w ++ [TelemetryWrite row true]))
    else
      (Val false,
       mk_world (hardware_state w) (gpio_out w) (settings w) (sensor_readings w)
         (latest_state w) (journal w ++ [TelemetryWrite row false])).

Definition log_sensor_data (env : Env) (temperature_c humidity : option pyfloat)
    (water_level_ok : bool) (water_levels_ok : list bool) : M unit :=
  do h <- get_hw;
  if fge (fsub (monotonic_time env) (last_sensor_log_time h)) (float_of_int 60)
  then
    match temperature_c, humidity with
    | Some t, Some hu =>
        match telemetry_row t hu water_level_ok water_levels_ok with
        | Some row =>
            do ok <- db_log env row;
            if ok then modify_hw (set_last_sensor_log_time (monotonic_time env))
            else pass
        | None => pass
        end
    | _, _ => pass
    end
  else pass.

(** ** The tick and the loop *)

(** Lines 222-408: the tick once the settings are loaded. *)
Definition control (env : Env) (app_settings : gmap string pyval) : M unit :=
  do _ <- lights_control env app_settings;
  do _ <- cycle_control env app_settings Pumps;
  do _ <- cycle_control env app_settings CirculationFans;
  do '(temperature_c, humidity) <- sensors_and_exhaust env app_settings;
  do '(water_level_ok, water_levels_ok) <- water_control env app_settings;
  log_sensor_data env temperature_c humidity water_level_ok water_levels_ok.

(** One iteration of the [while] of [run_hardware_loop].  [Raise] is the
    iteration that ends in the [except Exception] of line 413. *)
Definition tick (env : Env) : M unit :=
  do app_settings <- load_settings env;
  control env app_settings.

(** The state left at the tick boundary, however the tick ended. *)
Definition after_tick (env : Env) (w : World) : World := snd (tick env w).

Definition completes (env : Env) (w : World) : bool :=
  match fst (tick env w) with Val _ => true | Raise => false end.

(** [run_hardware_loop] over the ticks that happen before shutdown. *)
Fixpoint run_hardware_loop (envs : list Env) (w : World) : World :=
  match envs with
  | [] => w
  | env :: r => run_hardware_loop r (after_tick env w)
  end.

(** [update_settings] (lines 433-450): each pair updates the row with
    that key, if there is one. *)
Definition update_settings (data : list (string * string)) (w : World) : World :=
  mk_world (hardware_state w) (gpio_out w)
    (fold_left (fun s kv => alter (fun _ => snd kv) (fst kv) s) data (settings w))
    (sensor_readings w) (latest_state w) (journal w).

(** ** Start-up *)

(** [default_settings] of [init_db] (lines 89-106), after [str(value)]. *)
Definition default_settings : list (string * string) :=
  [("lightsOnTime", "06:00"); ("lightsOffTime", "22:00");
   ("pumpOnDuration", "900"); ("pumpOffDuration", "2700");
   ("exhaustFanTempHigh", "27.0"); ("exhaustFanTempLow", "23.0");
   ("exhaustFanHumidHigh", "65.0"); ("exhaustFanHumidLow", "55.0");
   ("circulationFanOnDuration", "1800"); ("circulationFanOffDuration", "1800");
   ("waterSystemMode", "auto"); ("maxFillTime", "600")]
  ++ imap (fun i _ => (numbered "lightsMode" i, "schedule")) LIGHTS_PINS
  ++ imap (fun i _ => (numbered "pumpMode" i, "cycle")) PUMPS_PINS
  ++ imap (fun i _ => (numbered "exhaustFanMode" i, "auto")) EXHAUST_FANS_PINS
  ++ imap (fun i _ => (numbered "circulationFanMode" i, "cycle")) CIRCULATION_FANS_PINS.

(** [INSERT OR IGNORE] of one row. *)
Definition insert_or_ignore {V : Type} (k : string) (v : V) (t : gmap string V)
  : gmap string V :=
  match t !! k with
  | Some _ => t
  | None => <[k := v]> t
  end.

(** [init_db] (lines 21-116) on the two tables the loop uses. *)
Definition init_db (w : World) : World :=
  mk_world (hardware_state w) (gpio_out w)
    (fold_left (fun s kv => insert_or_ignore (fst kv) (snd kv) s) default_settings
       (settings w))
    (sensor_readings w)
    (insert_or_ignore "sensors" (mk_row (float_of_int 0) (float_of_int 0) 0 0 0 0) (latest_state w))
    (journal w).

(** Lines 158-171, with [t] the monotonic clock at import. *)
Definition initial_hardware_state (t : pyfloat) : HardwareState :=
  mk_hardware_state
    (replicate (length PUMPS_PINS) false) (replicate (length PUMPS_PINS) t)
    (replicate (length LIGHTS_PINS) false) (replicate (length LIGHTS_PINS) t)
    (replicate (length EXHAUST_FANS_PINS) false)
    (replicate (length EXHAUST_FANS_PINS) t)
    (replicate (length CIRCULATION_FANS_PINS) false)
    (replicate (length CIRCULATION_FANS_PINS) t)
    false None None (fsub t (float_of_int 301)).

(** The world when the loop starts on a fresh database: every relay
    channel is an output driven HIGH (lines 146-149). *)
Definition boot (t : pyfloat) : World :=
  init_db
    (mk_world (initial_hardware_state t)
       (list_to_map ((fun pin => (pin, HIGH)) <$> relay_pins)) ∅ [] ∅ []).

(** The input channels of lines 151-154 with the levels they read. *)
Definition inputs (f1 f2 f3 ov : level) : gmap Z level :=
  list_to_map [(17, f1); (23, f2); (24, f3); (OVERFLOW_SENSOR_PIN, ov)].

(** ** What a tick observes, and traces of ticks *)

(** The dictionary built by [load_settings]. *)
Definition snapshot (w : World) : gmap string pyval := convert_value <$> settings w.

Definition water_mode (w : World) : pyval :=
  setting (snapshot w) "waterSystemMode" (VStr "auto").

Definition max_fill_time (w : World) : option pyfloat :=
  py_float (setting (snapshot w) "maxFillTime" (VInt 600)).

(** Line 338: [Some true] when the overflow sensor reads triggered. *)
Definition overflow_detected (env : Env) (w : World) : option bool :=
  is_low <$> GPIO_input env w OVERFLOW_SENSOR_PIN.

(** Lines 335-336: one flag per float sensor, [None] if a read raises. *)
Definition water_levels_ok (env : Env) (w : World) : option (list bool) :=
  mapM (fun pin => is_low <$> GPIO_input env w pin) FLOAT_SENSORS_PINS.

(** Line 337. *)
Definition water_level_ok (env : Env) (w : World) : option bool :=
  forallb id <$> water_levels_ok env w.

(** Whether a relay channel is set up as an output. *)
Definition is_output (w : World) (pin : Z) : bool :=
  match gpio_out w !! pin with Some _ => true | None => false end.

(** Whether the relay on [pin] is energised. *)
Definition relay_on (w : World) (pin : Z) : bool :=
  match gpio_out w !! pin with Some LOW => true | _ => false end.


(** [P] holds at the start of every tick of the run. *)
Fixpoint throughout (P : World -> Prop) (envs : list Env) (w : World) : Prop :=
  match envs with
  | [] => True
  | env :: r => P w /\ throughout P r (after_tick env w)
  end.

(** The telemetry transactions of a journal, oldest first. *)
Fixpoint telemetry_calls (j : list db_call) : list (TelemetryRow * bool) :=
  match j with
  | [] => []
  | TelemetryWrite row ok :: r => (row, ok) :: telemetry_calls r
  | ModeReset _ :: r => telemetry_calls r
  end.

(** The worlds the process can be in at a tick boundary: after start-up,
    after a tick, after a write of the HTTP surface. *)
Inductive reachable : World -> Prop :=
| reach_boot (t : pyfloat) : reachable (boot t)
| reach_tick (env : Env) (w : World) : reachable w -> reachable (after_tick env w)
| reach_write (data : list (string * string)) (w : World) :
    reachable w -> reachable (update_settings data w).

(** ** Times of day as microseconds since midnight *)

Definition valid_time (t : pytime) : Prop :=
  0 <= hour t < 24 /\ 0 <= minute t < 60 /\ 0 <= second t < 60 /\
  0 <= microsecond t < 1000000.

Definition us_of (t : pytime) : Z :=
  ((hour t * 60 + minute t) * 60 + second t) * 1000000 + microsecond t.

(** ** Channels, settings and telemetry as a tick sees them *)

(** The mode of channel [i] of group [k] in the settings of [w]. *)
Definition channel_mode (k : cycler) (i : nat) (w : World) : pyval :=
  setting (snapshot w) (cycler_mode_key k i) (VStr "cycle").

(** The cycle state of channel [i] of group [k]: its [is_on] flag and
    its [last_toggle]. *)
Definition channel_view (k : cycler) (i : nat) (w : World) : option bool * option pyfloat :=
  (cycler_is_on k (hardware_state w) !! i, cycler_last_toggle k (hardware_state w) !! i).

(** Whether the value read under [key] parses as a time of day. *)
Definition parses_time (w : World) (key : string) (d : pyval) : bool :=
  match time_of_val (setting (snapshot w) key d) with Some _ => true | None => false end.

(** Whether the value read under [key] parses as a float. *)
Definition parses_float (w : World) (key : string) (d : pyval) : bool :=
  match py_float (setting (snapshot w) key d) with Some _ => true | None => false end.

(** Every typed read of a tick parses: the two schedule bounds, the
    four durations, the four thresholds when there is a reading to
    compare them with, and the fill time. *)
Definition settings_parse (env : Env) (w : World) : bool :=
  parses_time w "lightsOnTime" (VStr "06:00") &&
  parses_time w "lightsOffTime" (VStr "22:00") &&
  parses_float w "pumpOnDuration" (VInt 900) &&
  parses_float w "pumpOffDuration" (VInt 2700) &&
  parses_float w "circulationFanOnDuration" (VInt 1800) &&
  parses_float w "circulationFanOffDuration" (VInt 1800) &&
  match aggregate (dht_devices env) with
  | (Some _, Some _) =>
      parses_float w "exhaustFanTempHigh" (VFloat (float_literal "27.0")) &&
      parses_float w "exhaustFanTempLow" (VFloat (float_literal "23.0")) &&
      parses_float w "exhaustFanHumidHigh" (VFloat (float_literal "65.0")) &&
      parses_float w "exhaustFanHumidLow" (VFloat (float_literal "55.0"))
  | _ => true
  end &&
  parses_float w "maxFillTime" (VInt 600).

(** The lengths of the four lists of the cycle bookkeeping. *)
Definition cycle_lengths (w : World) : nat * nat * nat * nat :=
  (length (pumps_on (hardware_state w)), length (last_pumps_toggle (hardware_state w)),
   length (circulation_fans_on (hardware_state w)),
   length (last_circulation_fans_toggle (hardware_state w))).

(** One entry per pump and per circulation fan. *)
Definition full_lengths (w : World) : Prop :=
  cycle_lengths w
  = (length PUMPS_PINS, length PUMPS_PINS, length CIRCULATION_FANS_PINS,
     length CIRCULATION_FANS_PINS).

(** Nothing but the settings can stop the tick: the settings can be
    selected, the float and overflow channels can be read, and the
    cycle bookkeeping has one entry per pump and per circulation fan. *)
Definition io_ready (env : Env) (w : World) : Prop :=
  db_select_ok env = true /\
  water_levels_ok env w <> None /\
  overflow_detected env w <> None /\
  full_lengths w.

(** What a device contributes to the averages of a tick: its two
    values, when both attributes were read and neither is [None]. *)
Definition dht_reading (d : dht_result) : option (pyfloat * pyfloat) :=
  match d with
  | DhtValues (Some temp) (Some hum) => Some (temp, hum)
  | _ => None
  end.

(** Line 388: whether a minute has passed since the last logged row. *)
Definition log_due (env : Env) (w : World) : bool :=
  fge (fsub (monotonic_time env) (last_sensor_log_time (hardware_state w)))
    (float_of_int 60).

(** What the telemetry step reads and writes of the world. *)
Definition telemetry_view (w : World)
  : pyfloat * list TelemetryRow * gmap string TelemetryRow * list (TelemetryRow * bool) :=
  (last_sensor_log_time (hardware_state w), sensor_readings w, latest_state w,
   telemetry_calls (journal w)).

(** The same tick with another answer of the telemetry transaction. *)
Definition with_db_log_ok (b : bool) (env : Env) : Env :=
  mk_env (current_time_for_schedule env) (monotonic_time env) (dht_devices env)
    (gpio_in env) (db_select_ok env) (db_reset_ok env) b.


(** ** Sample inputs *)

(** A tick at noon, at monotonic time [now], where both DHT devices
    read ([temp], [hum]), the float and overflow channels read the given
    levels and the database answers. *)
Definition sample_env (now temp hum : pyfloat) (f1 f2 f3 ov : level) : Env :=
  mk_env (mk_time 12 0 0 0) now
    [DhtValues (Some temp) (Some hum); DhtValues (Some temp) (Some hum)]
    (inputs f1 f2 f3 ov) true true true.

(** Two ticks on default settings: the first reads 30 degrees and 50 %,
    the second, two seconds later, 25 degrees and 50 %. *)
Definition exhaust_hot : World :=
  after_tick (sample_env 10 30 50 LOW LOW LOW HIGH) (boot 0).

Definition exhaust_dead_band : World :=
  after_tick (sample_env 12 25 50 LOW LOW LOW HIGH) exhaust_hot.

(** A manual override of pump 1: the dashboard sets [pumpMode1] to "on",
    a tick runs at time 10, the dashboard sets the mode back to
    "cycle", and the next tick runs at time 20 or at time 2700. *)
Definition override_on : World :=
  after_tick (sample_env 10 25 60 LOW LOW LOW HIGH)
    (update_settings [("pumpMode1", "on")] (boot 0)).

Definition override_back (now : pyfloat) : World :=
  after_tick (sample_env now 25 60 LOW LOW LOW HIGH)
    (update_settings [("pumpMode1", "cycle")] override_on).

(** ** Frames *)

(** [keeps obs m]: whatever [m] does, and however it ends, the
    observation [obs] of the world is the same afterwards. *)
Definition keeps {A T : Type} (obs : World -> T) (m : M A) : Prop :=
  forall w, obs (snd (m w)) = obs w.

(** [runs I m]: from a world where [I] holds, [m] returns and [I] holds
    again. *)
Definition runs {A : Type} (I : World -> Prop) (m : M A) : Prop :=
  forall w, I w -> exists a w', m w = (Val a, w') /\ I w'.

(** What the water engine reads and writes of the world. *)
Definition water_view (w : World)
  : bool * option pyfloat * option WaterError * option level :=
  (solenoid_on (hardware_state w), solenoid_start_time (hardware_state w),
   water_error (hardware_state w), gpio_out w !! SOLENOID_RELAY_PIN).

(** ** The HTTP surface and what it reads *)

(** The value that [update_settings] leaves under [key], given the value
    [old] stored before: the last pair of the request that names it. *)
Definition last_write (key : string) (data : list (string * string)) (old : string)
  : string :=
  fold_left (fun acc kv => if String.eqb (fst kv) key then snd kv else acc) data old.

(** [get_latest_sensors] (lines 452-463): the row keyed 'sensors' with
    the water error of the loop, or the 404 answer. *)
Definition get_latest_sensors (w : World) : option (TelemetryRow * option WaterError) :=
  match latest_state w !! "sensors" with
  | Some row => Some (row, water_error (hardware_state w))
  | None => None
  end.

(** * Properties *)

(** ** The parsers on sample strings *)

Example strptime_0600 : strptime_HM "06:00" = Some (mk_time 6 0 0 0).
Proof. reflexivity. Qed.

Example convert_examples :
  convert_value "900" = VInt 900 /\ convert_value "auto" = VStr "auto" /\
  convert_value "06:00" = VStr "06:00" /\
  convert_value "27.0" = VFloat (S754_finite false 7599824371187712 (-48)) /\
  convert_value "1.0e400" = VFloat (S754_infinity false) /\
  py_float (VStr "abc") = None /\ py_float (VInt (10 ^ 400)) = None /\
  strptime_HM "24:00" = None /\
  strptime_HM "7:5" = Some (mk_time 7 5 0 0) /\ strptime_HM "12:60" = None.
Proof. vm_compute. repeat split. Qed.

(** ** Floats *)

(** The arithmetic is rounded: [600.1 - 0.1] is [600.0], and the mean of
    [20.1] and [20.3] is above [20.2]. *)
Example rounded_arithmetic :
  fsub (float_literal "600.1") (float_literal "0.1") = 600 /\
  fgt (fsub (float_literal "600.1") (float_literal "0.1")) 600 = false /\
  fge (fsub (float_literal "2700.1") (float_literal "0.1")) 2700 = true /\
  fge (fsub (float_literal "60.3") (float_literal "0.3")) 60 = true /\
  fgt (mean [float_literal "20.1"; float_literal "20.3"]) (float_literal "20.2") = true /\
  mean [24 : pyfloat; 26 : pyfloat] = 25.
Proof. vm_compute. repeat split. Qed.

Lemma SFcompare_antisym (a b : pyfloat) :
  SFcompare b a = option_map CompOpp (SFcompare a b).
Proof.
  destruct a as [s1|s1| |s1 m1 e1], b as [s2|s2| |s2 m2 e2]; simpl; try reflexivity;
    try (destruct s1; reflexivity); try (destruct s2; reflexivity);
    try (destruct s1, s2; reflexivity).
  destruct s1, s2; simpl; try reflexivity; rewrite (Z.compare_antisym e1 e2);
    destruct (e1 ?= e2); simpl; try reflexivity;
    change (Pos.compare_cont Eq m2 m1) with (Pos.compare m2 m1);
    change (Pos.compare_cont Eq m1 m2) with (Pos.compare m1 m2);
    rewrite (Pos.compare_antisym m1 m2); reflexivity.
Qed.

Lemma fle_not_fgt (a b : pyfloat) : fle a b = true -> fgt a b = false.
Proof.
  unfold fle, fgt, SFleb, SFltb. rewrite (SFcompare_antisym a b).
  destruct (SFcompare a b) as [[]|]; simpl; congruence.
Qed.

(** ** The monad *)

Lemma bind_val {A B : Type} (m : M A) (f : A -> M B) (w w' : World) (b : B) :
  bind m f w = (Val b, w') ->
  exists a w1, m w = (Val a, w1) /\ f a w1 = (Val b, w').
Proof.
  unfold bind. destruct (m w) as [[a|] w1]; [eauto | discriminate].
Qed.

Lemma bind_step {A B : Type} (m : M A) (f : A -> M B) (w w1 : World) (a : A) :
  m w = (Val a, w1) -> bind m f w = f a w1.
Proof. unfold bind. intros ->. reflexivity. Qed.

Lemma bind_raise {A B : Type} (m : M A) (f : A -> M B) (w w1 : World) :
  m w = (Raise, w1) -> bind m f w = (Raise, w1).
Proof. unfold bind. intros ->. reflexivity. Qed.

Section Keeps.
Context {T : Type} (obs : World -> T).

Lemma keeps_ret {A : Type} (a : A) : keeps obs (ret a).
Proof. intros w. reflexivity. Qed.

Lemma keeps_pass : keeps obs pass.
Proof. intros w. reflexivity. Qed.

Lemma keeps_raise {A : Type} : keeps obs (@raise A).
Proof. intros w. reflexivity. Qed.

Lemma keeps_get_hw : keeps obs get_hw.
Proof. intros w. reflexivity. Qed.

Lemma keeps_or_raise {A : Type} (o : option A) : keeps obs (or_raise o).
Proof. intros w. destruct o; reflexivity. Qed.

Lemma keeps_item {A : Type} (l : list A) (i : nat) : keeps obs (item l i).
Proof. apply keeps_or_raise. Qed.

Lemma keeps_load_settings (env : Env) : keeps obs (load_settings env).
Proof. intros w. unfold load_settings. destruct (db_select_ok env); reflexivity. Qed.

Lemma keeps_bind {A B : Type} (m : M A) (f : A -> M B) :
  keeps obs m -> (forall a, keeps obs (f a)) -> keeps obs (bind m f).
Proof.
  intros Hm Hf w. unfold bind. specialize (Hm w).
  destruct (m w) as [[a|] w1]; simpl in *.
  - rewrite Hf. exact Hm.
  - exact Hm.
Qed.

Lemma keeps_for_enumerate {A : Type} (l : list A) (body : nat -> A -> M unit) :
  forall n,
    (forall i x, l !! i = Some x -> keeps obs (body (n + i)%nat x)) ->
    keeps obs (for_enumerate n l body).
Proof.
  induction l as [|x l IH]; intros n Hb; simpl.
  - apply keeps_ret.
  - apply keeps_bind.
    + specialize (Hb 0%nat x eq_refl). rewrite Nat.add_0_r in Hb. exact Hb.
    + intros _. apply IH. intros i y Hy.
      specialize (Hb (S i) y Hy). rewrite Nat.add_succ_r in Hb. exact Hb.
Qed.

Lemma keeps_read_inputs (env : Env) (pins : list Z) : keeps obs (read_inputs env pins).
Proof.
  induction pins as [|pin r IH]; simpl.
  - apply keeps_ret.
  - apply keeps_bind.
    + intros w. destruct (GPIO_input env w pin); reflexivity.
    + intros l. apply keeps_bind; [exact IH | intros ls; apply keeps_ret].
Qed.

Lemma keeps_modify_hw (f : HardwareState -> HardwareState) :
  (forall w, obs (set_hardware_state (f (hardware_state w)) w) = obs w) ->
  keeps obs (modify_hw f).
Proof. intros H w. apply H. Qed.

Lemma keeps_toggle_relay_blind (env : Env) (pin : Z) (d : bool) :
  (forall g w, obs (set_gpio_out g w) = obs w) -> keeps obs (toggle_relay env pin d).
Proof.
  intros H w. unfold toggle_relay, GPIO_output.
  destruct (GPIO_input env w pin) as [l|]; [|reflexivity].
  destruct (d && negb (is_low l)).
  { destruct (gpio_out w !! pin); simpl; [apply H | reflexivity]. }
  destruct (negb d && is_low l); [|reflexivity].
  destruct (gpio_out w !! pin); simpl; [apply H | reflexivity].
Qed.

Lemma keeps_drive_relay (env : Env) (pin : Z) (d : bool) :
  keeps obs (toggle_relay env pin d) -> keeps obs (drive_relay env pin d).
Proof. intros H. apply keeps_bind; [exact H | intros _; apply keeps_pass]. Qed.

Lemma keeps_lights_control (env : Env) (app_settings : gmap string pyval) :
  (forall pin d, pin ∈ LIGHTS_PINS -> keeps obs (toggle_relay env pin d)) ->
  keeps obs (lights_control env app_settings).
Proof.
  intros H. unfold lights_control.
  apply keeps_bind; [apply keeps_or_raise | intros on_time].
  apply keeps_bind; [apply keeps_or_raise | intros off_time].
  apply keeps_for_enumerate. intros i pin Hpin. simpl.
  apply keeps_drive_relay, H. eapply list_elem_of_lookup_2, Hpin.
Qed.

Lemma keeps_cycle_channel_manual (env : Env) (app_settings : gmap string pyval)
    (k : cycler) (on_duration off_duration : pyfloat) (i : nat) (pin : Z) :
  val_is (setting app_settings (cycler_mode_key k i) (VStr "cycle")) "cycle" = false ->
  (forall d, keeps obs (toggle_relay env pin d)) ->
  keeps obs (cycle_channel env app_settings k on_duration off_duration i pin).
Proof.
  intros Hmode H. unfold cycle_channel. rewrite Hmode.
  destruct (val_is _ "on"); apply keeps_drive_relay, H.
Qed.

Lemma keeps_cycle_channel (env : Env) (app_settings : gmap string pyval)
    (k : cycler) (on_duration off_duration : pyfloat) (i : nat) (pin : Z) :
  (forall d, keeps obs (toggle_relay env pin d)) ->
  (forall d, keeps obs (cycler_flip env k i pin d)) ->
  keeps obs (cycle_channel env app_settings k on_duration off_duration i pin).
Proof.
  intros H Hflip.
  destruct (val_is (setting app_settings (cycler_mode_key k i) (VStr "cycle")) "cycle")
    eqn:Hmode; [|apply keeps_cycle_channel_manual; assumption].
  unfold cycle_channel. rewrite Hmode.
  apply keeps_bind; [apply keeps_get_hw | intros h].
  apply keeps_bind; [apply keeps_item | intros is_on].
  apply keeps_bind; [apply keeps_item | intros last_toggle].
  destruct is_on; destruct (fge _ _); first [apply Hflip | apply keeps_pass].
Qed.

Lemma keeps_cycle_control (env : Env) (app_settings : gmap string pyval) (k : cycler) :
  (forall on_duration off_duration i pin,
      cycler_pins k !! i = Some pin ->
      keeps obs (cycle_channel env app_settings k on_duration off_duration i pin)) ->
  keeps obs (cycle_control env app_settings k).
Proof.
  intros H. unfold cycle_control.
  apply keeps_bind; [apply keeps_or_raise | intros on_duration].
  apply keeps_bind; [apply keeps_or_raise | intros off_duration].
  apply keeps_for_enumerate. intros i pin Hpin. apply H, Hpin.
Qed.

Lemma keeps_sensors_and_exhaust (env : Env) (app_settings : gmap string pyval) :
  (forall pin d, pin ∈ EXHAUST_FANS_PINS -> keeps obs (toggle_relay env pin d)) ->
  keeps obs (sensors_and_exhaust env app_settings).
Proof.
  intros H. unfold sensors_and_exhaust.
  destruct (aggregate (dht_devices env)) as [[t|] [hu|]]; try apply keeps_ret.
  do 4 (apply keeps_bind; [apply keeps_or_raise | intros ?]).
  apply keeps_bind; [apply keeps_get_hw | intros h].
  apply keeps_bind; [|intros _; apply keeps_ret].
  apply keeps_for_enumerate. intros i pin Hpin. simpl.
  assert (Hin : pin ∈ EXHAUST_FANS_PINS) by (eapply list_elem_of_lookup_2, Hpin).
  destruct (val_is _ "auto"); [|destruct (val_is _ "on")];
    apply keeps_drive_relay, H, Hin.
Qed.

Lemma keeps_water_control (env : Env) (app_settings : gmap string pyval) :
  (forall mode max ok ov, keeps obs (water_engine env mode max ok ov)) ->
  keeps obs (water_control env app_settings).
Proof.
  intros H. unfold water_control.
  apply keeps_bind; [apply keeps_read_inputs | intros floats].
  apply keeps_bind; [intros w; destruct (GPIO_input env w _); reflexivity | intros ov].
  apply keeps_bind; [apply keeps_or_raise | intros max].
  apply keeps_bind; [apply H | intros _; apply keeps_ret].
Qed.

Lemma keeps_water_engine (env : Env) (mode : pyval) (max : pyfloat) (ok ov : bool) :
  (forall d, keeps obs (toggle_relay env SOLENOID_RELAY_PIN d)) ->
  (forall e, keeps obs (modify_hw (set_water_error e))) ->
  (forall b, keeps obs (modify_hw (set_solenoid_on b))) ->
  (forall t, keeps obs (modify_hw (set_solenoid_start_time t))) ->
  keeps obs (reset_water_mode env) ->
  keeps obs (water_engine env mode max ok ov).
Proof.
  intros Ht He Hs Hst Hr. unfold water_engine. apply keeps_bind.
  - unfold should_solenoid_be_on. destruct ov.
    { apply keeps_bind; [apply He | intros _; apply keeps_ret]. }
    apply keeps_bind; [apply keeps_get_hw | intros h].
    destruct (solenoid_on h), (solenoid_start_time h);
      repeat match goal with
        | |- keeps _ (if ?c then _ else _) => destruct c
        | |- keeps _ (bind _ _) => apply keeps_bind; [|intros ?]
        | |- keeps _ (ret _) => apply keeps_ret
        | |- keeps _ (modify_hw (set_water_error _)) => apply He
        | |- keeps _ (reset_water_mode _) => apply Hr
        end.
  - intros should_on. unfold update_solenoid.
    apply keeps_bind; [apply keeps_get_hw | intros h].
    apply keeps_bind; [apply Ht | intros r].
    apply keeps_bind; [apply Hs | intros _].
    destruct (r && negb (solenoid_on h)).
    { apply keeps_bind; [apply Hst | intros _; apply He]. }
    destruct (negb r && solenoid_on h); [apply Hst | apply keeps_pass].
Qed.

Lemma keeps_log_sensor_data (env : Env) (t hu : option pyfloat) (ok : bool) (oks : list bool) :
  (forall row, keeps obs (db_log env row)) ->
  (forall x, keeps obs (modify_hw (set_last_sensor_log_time x))) ->
  keeps obs (log_sensor_data env t hu ok oks).
Proof.
  intros Hdb Hl. unfold log_sensor_data.
  apply keeps_bind; [apply keeps_get_hw | intros h].
  destruct (fge _ _); [|apply keeps_pass].
  destruct t as [t|], hu as [hu|]; try apply keeps_pass.
  destruct (telemetry_row t hu ok oks) as [row|]; [|apply keeps_pass].
  apply keeps_bind; [apply Hdb | intros [|]; [apply Hl | apply keeps_pass]].
Qed.

End Keeps.

(** ** Which primitive touches what *)

Lemma in_relay_pins (pin : Z) :
  pin ∈ relay_pins <->
  pin ∈ LIGHTS_PINS \/ pin ∈ PUMPS_PINS \/ pin ∈ EXHAUST_FANS_PINS \/
  pin ∈ CIRCULATION_FANS_PINS \/ pin = SOLENOID_RELAY_PIN.
Proof.
  unfold relay_pins. rewrite !elem_of_app, list_elem_of_singleton. tauto.
Qed.

Lemma cycler_pin_relay (k : cycler) (i : nat) (pin : Z) :
  cycler_pins k !! i = Some pin -> pin ∈ relay_pins.
Proof.
  intros H. apply list_elem_of_lookup_2 in H. apply in_relay_pins.
  destruct k; simpl in H; tauto.
Qed.

Lemma keeps_toggle_relay_other (env : Env) (pin q : Z) (d : bool) :
  pin <> q -> keeps (fun w => gpio_out w !! q) (toggle_relay env pin d).
Proof.
  intros Hne w. unfold toggle_relay, GPIO_output.
  destruct (GPIO_input env w pin) as [l|]; [|reflexivity].
  destruct (d && negb (is_low l)).
  { destruct (gpio_out w !! pin); simpl; [apply lookup_insert_ne, Hne | reflexivity]. }
  destruct (negb d && is_low l); [|reflexivity].
  destruct (gpio_out w !! pin); simpl; [apply lookup_insert_ne, Hne | reflexivity].
Qed.

Lemma keeps_toggle_relay_is_output (env : Env) (pin q : Z) (d : bool) :
  keeps (fun w => is_output w q) (toggle_relay env pin d).
Proof.
  intros w. unfold toggle_relay, GPIO_output, is_output.
  destruct (GPIO_input env w pin) as [l|]; [|reflexivity].
  assert (Hins : forall x, gpio_out w !! pin <> None ->
            match <[pin := x]> (gpio_out w) !! q with Some _ => true | None => false end
            = match gpio_out w !! q with Some _ => true | None => false end).
  { intros x Hsome. destruct (decide (pin = q)) as [->|Hne].
    - rewrite lookup_insert_eq. destruct (gpio_out w !! q); congruence.
    - rewrite lookup_insert_ne by exact Hne. reflexivity. }
  destruct (d && negb (is_low l)).
  { destruct (gpio_out w !! pin) eqn:E; simpl; [apply Hins; congruence | now rewrite ?E]. }
  destruct (negb d && is_low l); [|reflexivity].
  destruct (gpio_out w !! pin) eqn:E; simpl; [apply Hins; congruence | now rewrite ?E].
Qed.



Lemma toggle_relay_total (env : Env) (pin : Z) (d : bool) (w : World) :
  exists r, fst (toggle_relay env pin d w) = Val r.
Proof.
  unfold toggle_relay, GPIO_output.
  destruct (GPIO_input env w pin) as [l|]; [|eauto].
  destruct (d && negb (is_low l)); [destruct (gpio_out w !! pin); eauto|].
  destruct (negb d && is_low l); [destruct (gpio_out w !! pin); eauto | eauto].
Qed.

Lemma toggle_relay_hardware_state (env : Env) (pin : Z) (d : bool) :
  keeps hardware_state (toggle_relay env pin d).
Proof. apply keeps_toggle_relay_blind. reflexivity. Qed.

(** ** The shape of a tick *)

Ltac run_bind E :=
  match goal with
  | |- context [bind ?m ?f ?w] =>
      let a := fresh "a" in
      let w1 := fresh "w" in
      destruct (m w) as [[a|] w1] eqn:E;
      [rewrite (bind_step m f w w1 a E) | rewrite (bind_raise m f w w1 E)]
  end.

Lemma load_settings_val (env : Env) (w w' : World) (app : gmap string pyval) :
  load_settings env w = (Val app, w') ->
  db_select_ok env = true /\ app = snapshot w /\ w' = w.
Proof.
  unfold load_settings, snapshot. destruct (db_select_ok env); [|discriminate].
  intros [= <- <-]. auto.
Qed.

Lemma keeps_control {T : Type} (obs : World -> T) (env : Env)
    (app_settings : gmap string pyval) :
  (forall pin d, pin ∈ relay_pins -> keeps obs (toggle_relay env pin d)) ->
  (forall k on_duration off_duration i pin,
      cycler_pins k !! i = Some pin ->
      keeps obs (cycle_channel env app_settings k on_duration off_duration i pin)) ->
  (forall mode max ok ov, keeps obs (water_engine env mode max ok ov)) ->
  (forall t hu ok oks, keeps obs (log_sensor_data env t hu ok oks)) ->
  keeps obs (control env app_settings).
Proof.
  intros Ht Hc Hw Hl. unfold control.
  apply keeps_bind; [|intros _].
  { apply keeps_lights_control. intros pin d Hpin. apply Ht, in_relay_pins. tauto. }
  apply keeps_bind; [apply keeps_cycle_control; intros; apply Hc; assumption | intros _].
  apply keeps_bind; [apply keeps_cycle_control; intros; apply Hc; assumption | intros _].
  apply keeps_bind; [|intros [t hu]].
  { apply keeps_sensors_and_exhaust. intros pin d Hpin. apply Ht, in_relay_pins. tauto. }
  apply keeps_bind; [apply keeps_water_control, Hw | intros [ok oks]; apply Hl].
Qed.

(** A tick leaves [obs] alone as soon as each of its steps does, with
    the settings it loaded. *)
Lemma tick_keeps {T : Type} (obs : World -> T) (env : Env) (w : World) :
  (forall pin d, pin ∈ relay_pins -> keeps obs (toggle_relay env pin d)) ->
  (forall k on_duration off_duration i pin,
      cycler_pins k !! i = Some pin ->
      keeps obs (cycle_channel env (snapshot w) k on_duration off_duration i pin)) ->
  (forall mode max ok ov, keeps obs (water_engine env mode max ok ov)) ->
  (forall t hu ok oks, keeps obs (log_sensor_data env t hu ok oks)) ->
  obs (after_tick env w) = obs w.
Proof.
  intros Ht Hc Hw Hl. unfold after_tick, tick.
  destruct (load_settings env w) as [[app|] w0] eqn:E.
  - rewrite (bind_step _ _ _ _ _ E).
    apply load_settings_val in E as (_ & -> & ->).
    apply keeps_control; assumption.
  - rewrite (bind_raise _ _ _ _ E). simpl.
    unfold load_settings in E. destruct (db_select_ok env); congruence.
Qed.

Lemma completes_tick (env : Env) (w : World) :
  completes env w = true -> tick env w = (Val tt, after_tick env w).
Proof.
  unfold completes, after_tick. destruct (tick env w) as [[[]|] w']; simpl; congruence.
Qed.

Lemma completes_inv (env : Env) (w : World) :
  completes env w = true ->
  exists w2 w3 w4 t hu w5 ok oks w6,
    db_select_ok env = true /\
    lights_control env (snapshot w) w = (Val tt, w2) /\
    cycle_control env (snapshot w) Pumps w2 = (Val tt, w3) /\
    cycle_control env (snapshot w) CirculationFans w3 = (Val tt, w4) /\
    sensors_and_exhaust env (snapshot w) w4 = (Val (t, hu), w5) /\
    water_control env (snapshot w) w5 = (Val (ok, oks), w6) /\
    log_sensor_data env t hu ok oks w6 = (Val tt, after_tick env w).
Proof.
  intros H. apply completes_tick in H. revert H. generalize (after_tick env w).
  intros w' H. unfold tick in H.
  apply bind_val in H as (app & w0 & E0 & H).
  apply load_settings_val in E0 as (Hdb & -> & ->).
  unfold control in H.
  apply bind_val in H as ([] & w2 & E1 & H).
  apply bind_val in H as ([] & w3 & E2 & H).
  apply bind_val in H as ([] & w4 & E3 & H).
  apply bind_val in H as ([t hu] & w5 & E4 & H).
  apply bind_val in H as ([ok oks] & w6 & E5 & H).
  exists w2, w3, w4, t, hu, w5, ok, oks, w6. auto 10.
Qed.

(** Sections 1 to 4 leave alone whatever their relays and the cycle
    bookkeeping do not reach. *)
Lemma actuators_keep {T : Type} (obs : World -> T) (env : Env)
    (app : gmap string pyval) (w w2 w3 w4 w5 : World) (r : option pyfloat * option pyfloat) :
  (forall pin d, pin ∈ relay_pins -> pin <> SOLENOID_RELAY_PIN ->
                 keeps obs (toggle_relay env pin d)) ->
  (forall k i pin d, cycler_pins k !! i = Some pin ->
                     keeps obs (cycler_flip env k i pin d)) ->
  lights_control env app w = (Val tt, w2) ->
  cycle_control env app Pumps w2 = (Val tt, w3) ->
  cycle_control env app CirculationFans w3 = (Val tt, w4) ->
  sensors_and_exhaust env app w4 = (Val r, w5) ->
  obs w5 = obs w.
Proof.
  intros Ht Hf E1 E2 E3 E4.
  assert (Hl : forall pin d, pin ∈ LIGHTS_PINS -> keeps obs (toggle_relay env pin d)).
  { intros pin d Hpin. apply Ht; [apply in_relay_pins; tauto|].
    intros ->. revert Hpin. unfold LIGHTS_PINS, SOLENOID_RELAY_PIN.
    rewrite !elem_of_cons, elem_of_nil. lia. }
  assert (He : forall pin d, pin ∈ EXHAUST_FANS_PINS -> keeps obs (toggle_relay env pin d)).
  { intros pin d Hpin. apply Ht; [apply in_relay_pins; tauto|].
    intros ->. revert Hpin. unfold EXHAUST_FANS_PINS, SOLENOID_RELAY_PIN.
    rewrite !elem_of_cons, elem_of_nil. lia. }
  assert (Hc : forall k, keeps obs (cycle_control env app k)).
  { intros k. apply keeps_cycle_control. intros on off i pin Hpin.
    apply keeps_cycle_channel; [|intros d; apply Hf, Hpin].
    intros d. apply Ht; [eapply cycler_pin_relay, Hpin|].
    intros ->. apply list_elem_of_lookup_2 in Hpin. revert Hpin.
    destruct k; simpl; unfold PUMPS_PINS, CIRCULATION_FANS_PINS, SOLENOID_RELAY_PIN;
      rewrite !elem_of_cons, elem_of_nil; lia. }
  pose proof (keeps_lights_control obs env app Hl w) as K1. rewrite E1 in K1.
  pose proof (Hc Pumps w2) as K2. rewrite E2 in K2.
  pose proof (Hc CirculationFans w3) as K3. rewrite E3 in K3.
  pose proof (keeps_sensors_and_exhaust obs env app He w4) as K4. rewrite E4 in K4.
  simpl in *. congruence.
Qed.

Lemma keeps_cycler_flip_blind {T : Type} (obs : World -> T) (env : Env) (k : cycler)
    (i : nat) (pin : Z) (d : bool) :
  keeps obs (toggle_relay env pin d) ->
  (forall l w, obs (set_hardware_state (set_cycler_is_on k l (hardware_state w)) w) = obs w) ->
  (forall l w, obs (set_hardware_state (set_cycler_last_toggle k l (hardware_state w)) w)
               = obs w) ->
  keeps obs (cycler_flip env k i pin d).
Proof.
  intros Ht H1 H2. unfold cycler_flip.
  apply keeps_bind; [exact Ht | intros r].
  apply keeps_bind; [apply keeps_modify_hw; intros w; apply H1 | intros _].
  apply keeps_modify_hw. intros w. apply H2.
Qed.

(** ** The water engine *)

Lemma should_solenoid_be_on_total (env : Env) (mode : pyval) (max : pyfloat)
    (ok ov : bool) (w : World) :
  exists b w', should_solenoid_be_on env mode max ok ov w = (Val b, w').
Proof.
  unfold should_solenoid_be_on, bind, get_hw, modify_hw, ret, reset_water_mode.
  destruct ov; [eauto|].
  destruct (solenoid_on (hardware_state w)), (solenoid_start_time (hardware_state w));
    simpl;
    repeat match goal with
      | |- context [if ?c then _ else _] => destruct c; simpl
      end; eauto.
Qed.

Lemma update_solenoid_total (env : Env) (b : bool) (w : World) :
  exists w', update_solenoid env b w = (Val tt, w').
Proof.
  unfold update_solenoid, bind, get_hw. simpl.
  destruct (toggle_relay_total env SOLENOID_RELAY_PIN b w) as [r Hr].
  destruct (toggle_relay env SOLENOID_RELAY_PIN b w) as [r' w1]. simpl in Hr. subst r'.
  unfold modify_hw, pass, ret. simpl.
  destruct (r && negb (solenoid_on (hardware_state w))); [eauto|].
  destruct (negb r && solenoid_on (hardware_state w)); eauto.
Qed.

Lemma water_engine_total (env : Env) (mode : pyval) (max : pyfloat) (ok ov : bool)
    (w : World) :
  exists w', water_engine env mode max ok ov w = (Val tt, w').
Proof.
  unfold water_engine.
  destruct (should_solenoid_be_on_total env mode max ok ov w) as (b & w1 & E).
  rewrite (bind_step _ _ _ _ _ E). apply update_solenoid_total.
Qed.

Lemma log_sensor_data_total (env : Env) (t hu : option pyfloat) (ok : bool) (oks : list bool)
    (w : World) :
  exists w', log_sensor_data env t hu ok oks w = (Val tt, w').
Proof.
  unfold log_sensor_data, bind, get_hw, pass, ret, db_log, modify_hw. simpl.
  match goal with |- context [if ?c then _ else _] => destruct c end; [|eauto].
  destruct t, hu; eauto.
  destruct (telemetry_row _ _ _ _); [|eauto].
  destruct (db_log_ok env); eauto.
Qed.

Lemma read_inputs_val (env : Env) (pins : list Z) (w w' : World) (ls : list level) :
  read_inputs env pins w = (Val ls, w') ->
  w' = w /\ mapM (GPIO_input env w) pins = Some ls.
Proof.
  revert ls w'. induction pins as [|pin r IH]; intros ls w'; simpl.
  - intros [= <- <-]. auto.
  - intros H. apply bind_val in H as (l & w1 & E1 & H).
    destruct (GPIO_input env w pin) as [l'|] eqn:El; simpl in E1; [|discriminate].
    injection E1 as <- <-.
    apply bind_val in H as (ls' & w2 & E2 & H).
    apply IH in E2 as (-> & E2). injection H as <- <-.
    split; [reflexivity|]. rewrite E2. reflexivity.
Qed.

Lemma read_inputs_raise (env : Env) (pins : list Z) (w w' : World) :
  read_inputs env pins w = (Raise, w') -> w' = w.
Proof.
  intros H. pose proof (keeps_read_inputs id env pins w) as K.
  rewrite H in K. exact K.
Qed.

Lemma water_control_val (env : Env) (app : gmap string pyval) (w w' : World)
    (ok : bool) (oks : list bool) :
  water_control env app w = (Val (ok, oks), w') ->
  exists max ov,
    water_levels_ok env w = Some oks /\ ok = forallb id oks /\
    overflow_detected env w = Some ov /\
    py_float (setting app "maxFillTime" (VInt 600)) = Some max /\
    water_engine env (setting app "waterSystemMode" (VStr "auto")) max ok ov w
    = (Val tt, w').
Proof.
  unfold water_control. intros H.
  apply bind_val in H as (floats & w1 & E1 & H).
  apply read_inputs_val in E1 as (-> & E1).
  apply bind_val in H as (ovl & w2 & E2 & H).
  destruct (GPIO_input env w OVERFLOW_SENSOR_PIN) as [ovl'|] eqn:Eov; simpl in E2;
    [|discriminate].
  injection E2 as <- <-.
  apply bind_val in H as (max & w3 & E3 & H).
  destruct (py_float _) as [max'|] eqn:Emax; simpl in E3; [|discriminate].
  injection E3 as <- <-.
  apply bind_val in H as ([] & w4 & E4 & H). injection H as <- <- <-.
  exists max', (is_low ovl'). repeat split; try assumption.
  - unfold water_levels_ok. unfold FLOAT_SENSORS_PINS in *. simpl in *.
    destruct (GPIO_input env w 17); simpl in *; [|discriminate].
    destruct (GPIO_input env w 23); simpl in *; [|discriminate].
    destruct (GPIO_input env w 24); simpl in *; [|discriminate].
    injection E1 as <-. reflexivity.
  - unfold overflow_detected. rewrite Eov. reflexivity.
Qed.

Lemma or_raise_inv {A : Type} (o : option A) (w w' : World) (r : res A) :
  or_raise o w = (r, w') -> w' = w /\ r = match o with Some a => Val a | None => Raise end.
Proof. destruct o; simpl; intros [= <- <-]; auto. Qed.

Lemma water_control_raise (env : Env) (app : gmap string pyval) (w w' : World) :
  water_control env app w = (Raise, w') -> w' = w.
Proof.
  unfold water_control. intros H. revert H.
  run_bind E1; [|intros [= <-]; eapply read_inputs_raise, E1].
  apply read_inputs_val in E1 as (-> & _).
  run_bind E2; apply or_raise_inv in E2 as (-> & _); [|congruence].
  run_bind E3; apply or_raise_inv in E3 as (-> & _); [|congruence].
  destruct (water_engine_total env (setting app "waterSystemMode" (VStr "auto")) a1
              (forallb id (is_low <$> a)) (is_low a0) w) as [w4 E4].
  rewrite (bind_step _ _ _ _ _ E4). discriminate.
Qed.

Lemma relay_pin_not_sensor (pin q : Z) :
  pin ∈ relay_pins -> q ∈ OVERFLOW_SENSOR_PIN :: FLOAT_SENSORS_PINS -> pin <> q.
Proof.
  unfold relay_pins, LIGHTS_PINS, PUMPS_PINS, EXHAUST_FANS_PINS, CIRCULATION_FANS_PINS,
    SOLENOID_RELAY_PIN, OVERFLOW_SENSOR_PIN, FLOAT_SENSORS_PINS.
  rewrite !elem_of_app, !elem_of_cons, !elem_of_nil. lia.
Qed.

Lemma cycler_pin_not_solenoid (k : cycler) (i : nat) (pin : Z) :
  cycler_pins k !! i = Some pin -> pin <> SOLENOID_RELAY_PIN.
Proof.
  intros H ->. apply list_elem_of_lookup_2 in H. revert H.
  destruct k; simpl; unfold PUMPS_PINS, CIRCULATION_FANS_PINS, SOLENOID_RELAY_PIN;
    rewrite !elem_of_cons, elem_of_nil; lia.
Qed.

Lemma keeps_GPIO_input_toggle (env env' : Env) (pin q : Z) (d : bool) :
  pin <> q -> keeps (fun w => GPIO_input env' w q) (toggle_relay env pin d).
Proof.
  intros Hne w. unfold GPIO_input.
  rewrite (keeps_toggle_relay_other env pin q d Hne w). reflexivity.
Qed.

(** The sensors read by the water section are read as at the start of
    the tick. *)
Lemma sensors_unchanged (env : Env) (app : gmap string pyval) (w w2 w3 w4 w5 : World)
    (r : option pyfloat * option pyfloat) (q : Z) :
  q ∈ OVERFLOW_SENSOR_PIN :: FLOAT_SENSORS_PINS ->
  lights_control env app w = (Val tt, w2) ->
  cycle_control env app Pumps w2 = (Val tt, w3) ->
  cycle_control env app CirculationFans w3 = (Val tt, w4) ->
  sensors_and_exhaust env app w4 = (Val r, w5) ->
  GPIO_input env w5 q = GPIO_input env w q.
Proof.
  intros Hq. apply (actuators_keep (fun w => GPIO_input env w q)).
  - intros pin d Hpin _. apply keeps_GPIO_input_toggle.
    apply relay_pin_not_sensor; assumption.
  - intros k i pin d Hpin. apply keeps_cycler_flip_blind.
    + apply keeps_GPIO_input_toggle, relay_pin_not_sensor;
        [eapply cycler_pin_relay, Hpin | assumption].
    + intros l w'. destruct k; reflexivity.
    + intros l w'. destruct k; reflexivity.
Qed.

Lemma keeps_water_view_toggle (env : Env) (pin : Z) (d : bool) :
  pin <> SOLENOID_RELAY_PIN -> keeps water_view (toggle_relay env pin d).
Proof.
  intros Hne w. unfold water_view.
  rewrite (toggle_relay_hardware_state env pin d w).
  rewrite (keeps_toggle_relay_other env pin _ d Hne w). reflexivity.
Qed.

Lemma keeps_water_view_flip (env : Env) (k : cycler) (i : nat) (pin : Z) (d : bool) :
  cycler_pins k !! i = Some pin -> keeps water_view (cycler_flip env k i pin d).
Proof.
  intros Hpin. apply keeps_cycler_flip_blind.
  - eapply keeps_water_view_toggle, cycler_pin_not_solenoid, Hpin.
  - intros l w. destruct k; reflexivity.
  - intros l w. destruct k; reflexivity.
Qed.

Lemma keeps_water_view_log (env : Env) (t hu : option pyfloat) (ok : bool) (oks : list bool) :
  keeps water_view (log_sensor_data env t hu ok oks).
Proof.
  apply keeps_log_sensor_data.
  - intros row w. unfold db_log. destruct (db_log_ok env); reflexivity.
  - intros x. apply keeps_modify_hw. reflexivity.
Qed.

(** A tick that is abandoned never got as far as the water engine. *)
Lemma tick_abandoned_water (env : Env) (w : World) :
  completes env w = false -> water_view (after_tick env w) = water_view w.
Proof.
  unfold completes, after_tick, tick.
  assert (Hl : forall app, keeps water_view (lights_control env app)).
  { intros app. apply keeps_lights_control. intros pin d Hpin.
    apply keeps_water_view_toggle. intros ->. revert Hpin.
    unfold LIGHTS_PINS, SOLENOID_RELAY_PIN. rewrite !elem_of_cons, elem_of_nil. lia. }
  assert (Hc : forall app k, keeps water_view (cycle_control env app k)).
  { intros app k. apply keeps_cycle_control. intros on off i pin Hpin.
    apply keeps_cycle_channel; [|intros d; apply keeps_water_view_flip, Hpin].
    intros d. eapply keeps_water_view_toggle, cycler_pin_not_solenoid, Hpin. }
  assert (He : forall app, keeps water_view (sensors_and_exhaust env app)).
  { intros app. apply keeps_sensors_and_exhaust. intros pin d Hpin.
    apply keeps_water_view_toggle. intros ->. revert Hpin.
    unfold EXHAUST_FANS_PINS, SOLENOID_RELAY_PIN. rewrite !elem_of_cons, elem_of_nil. lia. }
  run_bind E0.
  2:{ intros _. simpl. pose proof (keeps_load_settings water_view env w) as K.
      rewrite E0 in K. exact K. }
  apply load_settings_val in E0 as (_ & -> & ->). unfold control.
  run_bind E1; [|intros _; specialize (Hl (snapshot w) w); rewrite E1 in Hl; exact Hl].
  pose proof (Hl (snapshot w) w) as K1. rewrite E1 in K1. simpl in K1.
  run_bind E2.
  2:{ intros _. pose proof (Hc (snapshot w) Pumps w0) as K. rewrite E2 in K.
      simpl in *. congruence. }
  pose proof (Hc (snapshot w) Pumps w0) as K2. rewrite E2 in K2. simpl in K2.
  run_bind E3.
  2:{ intros _. pose proof (Hc (snapshot w) CirculationFans w1) as K. rewrite E3 in K.
      simpl in *. congruence. }
  pose proof (Hc (snapshot w) CirculationFans w1) as K3. rewrite E3 in K3. simpl in K3.
  run_bind E4.
  2:{ intros _. pose proof (He (snapshot w) w2) as K. rewrite E4 in K.
      simpl in *. congruence. }
  pose proof (He (snapshot w) w2) as K4. rewrite E4 in K4. simpl in K4.
  destruct a2 as [t hu].
  run_bind E5.
  2:{ intros _. apply water_control_raise in E5 as ->. simpl. congruence. }
  destruct a2 as [ok oks].
  destruct (log_sensor_data_total env t hu ok oks w4) as [w6 E6]. rewrite E6.
  discriminate.
Qed.

(** A tick that runs to its end ran the water engine once, on what the
    sensors and the settings said at its start. *)
Lemma tick_completed_water (env : Env) (w : World) :
  completes env w = true ->
  exists w5 max oks ov,
    water_view w5 = water_view w /\
    max_fill_time w = Some max /\
    water_levels_ok env w = Some oks /\
    overflow_detected env w = Some ov /\
    water_view (after_tick env w)
    = water_view (snd (water_engine env (water_mode w) max (forallb id oks) ov w5)).
Proof.
  intros H.
  apply completes_inv in H
    as (w2 & w3 & w4 & t & hu & w5 & ok & oks & w6 & _ & E1 & E2 & E3 & E4 & E5 & E6).
  apply water_control_val in E5 as (max & ov & Hoks & -> & Hov & Hmax & E5).
  assert (Hs : forall q, q ∈ OVERFLOW_SENSOR_PIN :: FLOAT_SENSORS_PINS ->
                         GPIO_input env w5 q = GPIO_input env w q).
  { intros q Hq. eapply sensors_unchanged; eauto. }
  exists w5, max, oks, ov. repeat split.
  - eapply (actuators_keep water_view); eauto.
    + intros pin d _ Hne. apply keeps_water_view_toggle, Hne.
    + intros k i pin d Hpin. apply keeps_water_view_flip, Hpin.
  - exact Hmax.
  - rewrite <- Hoks. unfold water_levels_ok, FLOAT_SENSORS_PINS. simpl.
    rewrite !Hs; [reflexivity | ..];
      unfold OVERFLOW_SENSOR_PIN, FLOAT_SENSORS_PINS; rewrite !elem_of_cons; auto 10.
  - rewrite <- Hov. unfold overflow_detected. rewrite Hs; [reflexivity | left].
  - pose proof (keeps_water_view_log env t hu (forallb id oks) oks w6) as K.
    rewrite E6 in K. simpl in K. rewrite K.
    unfold water_mode. rewrite E5. reflexivity.
Qed.

Ltac engine_unfold :=
  unfold water_engine, should_solenoid_be_on, update_solenoid, toggle_relay,
    GPIO_input, GPIO_output, bind, get_hw, modify_hw, ret, pass, reset_water_mode,
    relay_on, error_is, is_output in *; simpl in *.

Ltac engine_open w :=
  destruct w as [[? ? ? ? ? ? ? ? sol_on sol_start w_err ?] ? ? ? ? ?];
  engine_unfold; subst; simpl in *.

Ltac engine_cases :=
  repeat match goal with
    | H : context [<[?p:=_]> _ !! ?p] |- _ => rewrite lookup_insert_eq in H
    | |- context [<[?p:=_]> _ !! ?p] => rewrite lookup_insert_eq
    | |- context [match ?x with _ => _ end] =>
        match x with
        | context [match _ with _ => _ end] => fail 1
        | _ => destruct x eqn:?; simpl in *; try congruence
        end
    end.

Ltac engine_done :=
  repeat match goal with l : level |- _ => destruct l end;
  simplify_eq/=; auto; try (intuition congruence).

Lemma engine_overflow (env : Env) (mode : pyval) (max : pyfloat) (ok : bool)
    (w : World) :
  let w' := snd (water_engine env mode max ok true w) in
  solenoid_on (hardware_state w') = false /\
  water_error (hardware_state w') = Some overflow /\
  relay_on w' SOLENOID_RELAY_PIN = false.
Proof.
  engine_open w. engine_cases; engine_done.
Qed.

Lemma engine_timeout (env : Env) (mode : pyval) (max : pyfloat) (ok : bool)
    (w : World) (start : pyfloat) :
  solenoid_on (hardware_state w) = true ->
  solenoid_start_time (hardware_state w) = Some start ->
  fgt (fsub (monotonic_time env) start) max = true ->
  let w' := snd (water_engine env mode max ok false w) in
  solenoid_on (hardware_state w') = false /\
  solenoid_start_time (hardware_state w') = None /\
  water_error (hardware_state w') = Some (if ok then timeout else reservoir_empty) /\
  relay_on w' SOLENOID_RELAY_PIN = false.
Proof.
  intros Hon Hst Hgt. engine_open w. rewrite Hgt.
  destruct ok; simpl; engine_cases; engine_done.
Qed.

Lemma engine_filling (env : Env) (mode : pyval) (max : pyfloat) (ok : bool)
    (w : World) (start : pyfloat) :
  solenoid_on (hardware_state w) = true ->
  solenoid_start_time (hardware_state w) = Some start ->
  fgt (fsub (monotonic_time env) start) max = false ->
  is_output w SOLENOID_RELAY_PIN = true ->
  let w' := snd (water_engine env mode max ok false w) in
  solenoid_on (hardware_state w') = true /\
  solenoid_start_time (hardware_state w') = Some start /\
  water_error (hardware_state w') = water_error (hardware_state w) /\
  relay_on w' SOLENOID_RELAY_PIN = true.
Proof.
  intros Hon Hst Hgt Hout. engine_open w. rewrite Hgt.
  simpl. engine_cases; engine_done.
Qed.



Lemma engine_invariant (env : Env) (mode : pyval) (max : pyfloat) (ok ov : bool)
    (w : World) :
  (solenoid_start_time (hardware_state w) <> None <-> solenoid_on (hardware_state w) = true) ->
  let w' := snd (water_engine env mode max ok ov w) in
  solenoid_start_time (hardware_state w') <> None <-> solenoid_on (hardware_state w') = true.
Proof.
  intros Hinv. engine_open w.
  destruct ov, sol_on, sol_start; simpl; engine_cases; engine_done.
Qed.

Lemma engine_error_cleared (env : Env) (mode : pyval) (max : pyfloat) (ok ov : bool)
    (w : World) :
  let w' := snd (water_engine env mode max ok ov w) in
  (solenoid_on (hardware_state w) = false -> solenoid_on (hardware_state w') = true ->
   water_error (hardware_state w') = None) /\
  (water_error (hardware_state w') = None ->
   water_error (hardware_state w) = None \/
   (solenoid_on (hardware_state w) = false /\ solenoid_on (hardware_state w') = true)).
Proof.
  engine_open w.
  destruct ov, sol_on, sol_start; simpl; engine_cases; engine_done.
Qed.
Lemma water_view_eq (a b : World) :
  water_view a = water_view b ->
  solenoid_on (hardware_state a) = solenoid_on (hardware_state b) /\
  solenoid_start_time (hardware_state a) = solenoid_start_time (hardware_state b) /\
  water_error (hardware_state a) = water_error (hardware_state b) /\
  relay_on a SOLENOID_RELAY_PIN = relay_on b SOLENOID_RELAY_PIN /\
  is_output a SOLENOID_RELAY_PIN = is_output b SOLENOID_RELAY_PIN.
Proof.
  unfold water_view, relay_on, is_output. intros [= -> -> -> ->]. auto.
Qed.

(** C1, as amended.  When the overflow sensor reads triggered, a tick
    that runs to its end commands the solenoid off (the tracked flag is
    false and the relay is not energised) and leaves the water error
    'overflow', whatever the previous water state, the water mode and
    the fill time were; a tick that is abandoned leaves the solenoid
    flag, the fill start, the water error and the solenoid relay as they
    were. *)
Theorem overflow_interlock (env : Env) (w : World) :
  overflow_detected env w = Some true ->
  (completes env w = true ->
   solenoid_on (hardware_state (after_tick env w)) = false /\
   water_error (hardware_state (after_tick env w)) = Some overflow /\
   relay_on (after_tick env w) SOLENOID_RELAY_PIN = false) /\
  (completes env w = false -> water_view (after_tick env w) = water_view w).
Proof.
  intros Hov. split; [|apply tick_abandoned_water].
  intros Hc.
  destruct (tick_completed_water env w Hc) as (w5 & max & oks & ov & _ & _ & _ & Hov' & Hv).
  assert (ov = true) as -> by congruence.
  apply water_view_eq in Hv as (-> & _ & -> & -> & _).
  apply engine_overflow.
Qed.

Lemma overflow_interlock_witness :
  let env := sample_env 700 25 60 HIGH HIGH HIGH LOW in
  let w := after_tick (sample_env 10 25 60 HIGH HIGH HIGH HIGH) (boot 0) in
  completes env w = true /\
  overflow_detected env w = Some true /\
  solenoid_on (hardware_state w) = true /\
  solenoid_on (hardware_state (after_tick env w)) = false /\
  water_error (hardware_state (after_tick env w)) = Some overflow /\
  relay_on (after_tick env w) SOLENOID_RELAY_PIN = false.
Proof.
  intros env w.
  assert (Hc : completes env w = true) by (vm_compute; reflexivity).
  assert (Hov : overflow_detected env w = Some true) by (vm_compute; reflexivity).
  split; [exact Hc|]. split; [exact Hov|]. split; [vm_compute; reflexivity|].
  exact (proj1 (overflow_interlock env w Hov) Hc).
Defined.

(** The claim C1 as stated fails.  A fill is in progress and the
    dashboard has stored "abc" under [maxFillTime]; on the next tick the
    overflow sensor reads triggered, but [float("abc")] raises at line
    340, before the test of line 343: the tick is abandoned, the
    solenoid stays on and no error is recorded. *)
Lemma overflow_missed_by_abandoned_tick :
  let w := update_settings [("maxFillTime", "abc")]
             (after_tick (sample_env 10 25 60 HIGH HIGH HIGH HIGH) (boot 0)) in
  let env := sample_env 12 25 60 HIGH HIGH HIGH LOW in
  reachable w /\
  solenoid_on (hardware_state w) = true /\
  overflow_detected env w = Some true /\
  completes env w = false /\
  solenoid_on (hardware_state (after_tick env w)) = true /\
  water_error (hardware_state (after_tick env w)) = None /\
  relay_on (after_tick env w) SOLENOID_RELAY_PIN = true.
Proof.
  intros w env. split; [apply reach_write, reach_tick, reach_boot|].
  vm_compute. repeat split; reflexivity.
Qed.

Lemma water_level_ok_levels (env : Env) (w : World) (oks : list bool) :
  water_levels_ok env w = Some oks -> water_level_ok env w = Some (forallb id oks).
Proof. unfold water_level_ok. intros ->. reflexivity. Qed.

(** C4, as amended.  On a tick that runs to its end, while filling
    (solenoid on, fill start recorded) with the overflow sensor quiet:
    once [now - fill_start > max_fill_time], the difference being the
    float difference that line 350 computes, the solenoid is switched
    off and the error is 'reservoir_empty' if the water level is not OK
    and 'timeout' if it is; as long as
    [now - fill_start <= max_fill_time] the solenoid stays on, whatever
    the float sensors read. *)
Theorem fill_timeout (env : Env) (w : World) (start : pyfloat) (max : pyfloat) (ok : bool) :
  completes env w = true ->
  overflow_detected env w = Some false ->
  solenoid_on (hardware_state w) = true ->
  solenoid_start_time (hardware_state w) = Some start ->
  max_fill_time w = Some max ->
  water_level_ok env w = Some ok ->
  let elapsed := fsub (monotonic_time env) start in
  let w' := after_tick env w in
  (fgt elapsed max = true ->
   solenoid_on (hardware_state w') = false /\
   relay_on w' SOLENOID_RELAY_PIN = false /\
   water_error (hardware_state w') = Some (if ok then timeout else reservoir_empty)) /\
  (fle elapsed max = true ->
   is_output w SOLENOID_RELAY_PIN = true ->
   solenoid_on (hardware_state w') = true /\
   relay_on w' SOLENOID_RELAY_PIN = true /\
   solenoid_start_time (hardware_state w') = Some start).
Proof.
  intros Hc Hov Hon Hst Hmax Hok elapsed w'. subst elapsed w'.
  destruct (tick_completed_water env w Hc)
    as (w5 & max' & oks & ov & Hv5 & Hmax' & Hoks & Hov' & Hv).
  apply water_level_ok_levels in Hoks.
  assert (max' = max) as -> by congruence.
  assert (ov = false) as -> by congruence.
  assert (Hok' : forallb id oks = ok) by congruence. rewrite Hok' in Hv.
  apply water_view_eq in Hv5 as (Hon5 & Hst5 & _ & _ & Hout5).
  apply water_view_eq in Hv as (-> & -> & -> & -> & _).
  rewrite <- Hon5 in Hon. rewrite <- Hst5 in Hst. rewrite <- Hout5.
  split.
  - intros Hgt.
    destruct (engine_timeout env (water_mode w) max ok w5 start Hon Hst Hgt)
      as (? & ? & ? & ?). auto.
  - intros Hle Hout. apply fle_not_fgt in Hle.
    destruct (engine_filling env (water_mode w) max ok w5 start Hon Hst Hle Hout)
      as (? & ? & ? & ?). auto.
Qed.

(** A fill started at time 10 with [maxFillTime] 600: at 611 it ends
    with 'reservoir_empty' on dry sensors and with 'timeout' on wet
    ones, at 610 it goes on.  A fill started at 0.1 goes on at 600.1,
    where the float difference is 600.0. *)
Lemma fill_timeout_witness :
  let w := after_tick (sample_env 10 25 60 HIGH HIGH HIGH HIGH) (boot 0) in
  let dry := sample_env 611 25 60 HIGH HIGH HIGH HIGH in
  let stuck := sample_env 611 25 60 LOW LOW LOW HIGH in
  let filling := sample_env 610 25 60 LOW LOW LOW HIGH in
  let w01 := after_tick (sample_env (float_literal "0.1") 25 60 HIGH HIGH HIGH HIGH)
               (boot 0) in
  let at6001 := sample_env (float_literal "600.1") 25 60 HIGH HIGH HIGH HIGH in
  solenoid_start_time (hardware_state w) = Some (10 : pyfloat) /\
  max_fill_time w = Some (600 : pyfloat) /\
  water_error (hardware_state (after_tick dry w)) = Some reservoir_empty /\
  water_error (hardware_state (after_tick stuck w)) = Some timeout /\
  solenoid_on (hardware_state (after_tick stuck w)) = false /\
  solenoid_on (hardware_state (after_tick filling w)) = true /\
  solenoid_start_time (hardware_state w01) = Some (float_literal "0.1") /\
  solenoid_on (hardware_state (after_tick at6001 w01)) = true.
Proof.
  intros w dry stuck filling w01 at6001.
  split; [vm_compute; reflexivity|]. split; [vm_compute; reflexivity|].
  split; [|split; [|split; [|split; [|split]]]].
  - refine (proj2 (proj2 (proj1 (fill_timeout dry w 10 600 false
                                   _ _ _ _ _ _) _)));
      vm_compute; reflexivity.
  - refine (proj2 (proj2 (proj1 (fill_timeout stuck w 10 600 true
                                   _ _ _ _ _ _) _)));
      vm_compute; reflexivity.
  - refine (proj1 (proj1 (fill_timeout stuck w 10 600 true
                            _ _ _ _ _ _) _));
      vm_compute; reflexivity.
  - refine (proj1 (proj2 (fill_timeout filling w 10 600 true
                            _ _ _ _ _ _) _ _));
      vm_compute; reflexivity.
  - vm_compute. reflexivity.
  - refine (proj1 (proj2 (fill_timeout at6001 w01 (float_literal "0.1") 600 false
                            _ _ _ _ _ _) _ _));
      vm_compute; reflexivity.
Defined.

(** The claim C4 as stated fails.  A fill started at time 10 with
    [maxFillTime] 600 is still on at time 1000 when the dashboard has
    stored "fast" under [pumpOnDuration]: [float("fast")] raises at line
    247, the tick is abandoned before the timeout test, the solenoid
    stays on and no error is recorded. *)
Lemma fill_timeout_missed_by_abandoned_tick :
  let w := update_settings [("pumpOnDuration", "fast")]
             (after_tick (sample_env 10 25 60 HIGH HIGH HIGH HIGH) (boot 0)) in
  let env := sample_env 1000 25 60 HIGH HIGH HIGH HIGH in
  reachable w /\
  overflow_detected env w = Some false /\
  solenoid_on (hardware_state w) = true /\
  solenoid_start_time (hardware_state w) = Some (10 : pyfloat) /\
  max_fill_time w = Some (600 : pyfloat) /\
  fgt (fsub (monotonic_time env) 10) 600 = true /\
  completes env w = false /\
  solenoid_on (hardware_state (after_tick env w)) = true /\
  relay_on (after_tick env w) SOLENOID_RELAY_PIN = true /\
  water_error (hardware_state (after_tick env w)) = None.
Proof.
  intros w env. split; [apply reach_write, reach_tick, reach_boot|].
  vm_compute. repeat split; reflexivity.
Qed.





Lemma tick_water_invariant (env : Env) (w : World) :
  (solenoid_start_time (hardware_state w) <> None <->
   solenoid_on (hardware_state w) = true) ->
  solenoid_start_time (hardware_state (after_tick env w)) <> None <->
  solenoid_on (hardware_state (after_tick env w)) = true.
Proof.
  intros Hinv. destruct (completes env w) eqn:Hc.
  - destruct (tick_completed_water env w Hc) as (w5 & max & oks & ov & Hv5 & _ & _ & _ & Hv).
    apply water_view_eq in Hv5 as (Hon5 & Hst5 & _).
    apply water_view_eq in Hv as (-> & -> & _).
    apply engine_invariant. rewrite Hon5, Hst5. exact Hinv.
  - apply tick_abandoned_water, water_view_eq in Hc as (-> & -> & _). exact Hinv.
Qed.

Lemma tick_error_cleared (env : Env) (w : World) :
  let w' := after_tick env w in
  (solenoid_on (hardware_state w) = false -> solenoid_on (hardware_state w') = true ->
   water_error (hardware_state w') = None) /\
  (water_error (hardware_state w') = None ->
   water_error (hardware_state w) = None \/
   (solenoid_on (hardware_state w) = false /\ solenoid_on (hardware_state w') = true)).
Proof.
  simpl. destruct (completes env w) eqn:Hc.
  - destruct (tick_completed_water env w Hc) as (w5 & max & oks & ov & Hv5 & _ & _ & _ & Hv).
    apply water_view_eq in Hv5 as (Hon5 & _ & Herr5 & _).
    apply water_view_eq in Hv as (-> & _ & -> & _).
    rewrite <- Hon5, <- Herr5. apply engine_error_cleared.
  - apply tick_abandoned_water, water_view_eq in Hc as (-> & _ & -> & _).
    split; [congruence | auto].
Qed.

(** C6. At every tick boundary the fill start ([solenoid_start_time])
    is recorded iff the solenoid is on; and over any tick the water
    error ends up [None] after having been set only if that tick took
    the solenoid from off to on, a transition that always ends with the
    error [None]. *)
Theorem water_state_invariant (w : World) :
  reachable w ->
  (solenoid_start_time (hardware_state w) <> None <->
   solenoid_on (hardware_state w) = true) /\
  forall env,
    let w' := after_tick env w in
    (solenoid_on (hardware_state w) = false -> solenoid_on (hardware_state w') = true ->
     water_error (hardware_state w') = None) /\
    (water_error (hardware_state w') = None ->
     water_error (hardware_state w) = None \/
     (solenoid_on (hardware_state w) = false /\ solenoid_on (hardware_state w') = true)).
Proof.
  intros Hr. split; [|intros env; apply tick_error_cleared].
  induction Hr as [t | env w Hr IH | data w Hr IH].
  - simpl. split; [congruence | discriminate].
  - apply tick_water_invariant, IH.
  - exact IH.
Qed.

Lemma water_state_invariant_witness :
  let w := after_tick (sample_env 10 25 60 HIGH HIGH HIGH HIGH) (boot 0) in
  solenoid_on (hardware_state w) = true /\
  (solenoid_start_time (hardware_state w) <> None <->
   solenoid_on (hardware_state w) = true).
Proof.
  intros w. split; [vm_compute; reflexivity|].
  exact (proj1 (water_state_invariant w (reach_tick _ _ (reach_boot 0)))).
Defined.
Lemma set_cycler_is_on_view (k k' : cycler) (i j : nat) (r : bool) (w : World) :
  k' <> k \/ j <> i ->
  channel_view k i
    (set_hardware_state
       (set_cycler_is_on k' (<[j := r]> (cycler_is_on k' (hardware_state w)))
          (hardware_state w)) w)
  = channel_view k i w.
Proof.
  intros H. unfold channel_view.
  destruct k, k'; simpl; try reflexivity;
    (destruct H as [H|H]; [congruence|]);
    rewrite list_lookup_insert_ne by exact H; reflexivity.
Qed.

Lemma set_cycler_last_toggle_view (k k' : cycler) (i j : nat) (t : pyfloat) (w : World) :
  k' <> k \/ j <> i ->
  channel_view k i
    (set_hardware_state
       (set_cycler_last_toggle k' (<[j := t]> (cycler_last_toggle k' (hardware_state w)))
          (hardware_state w)) w)
  = channel_view k i w.
Proof.
  intros H. unfold channel_view.
  destruct k, k'; simpl; try reflexivity;
    (destruct H as [H|H]; [congruence|]);
    rewrite list_lookup_insert_ne by exact H; reflexivity.
Qed.

Lemma keeps_channel_view_flip (env : Env) (k k' : cycler) (i j : nat) (pin : Z)
    (d : bool) :
  k' <> k \/ j <> i -> keeps (channel_view k i) (cycler_flip env k' j pin d).
Proof.
  intros H. unfold cycler_flip.
  apply keeps_bind; [apply keeps_toggle_relay_blind; reflexivity | intros r].
  apply keeps_bind; [|intros _].
  - apply keeps_modify_hw. intros w. apply set_cycler_is_on_view, H.
  - apply keeps_modify_hw. intros w. apply set_cycler_last_toggle_view, H.
Qed.

Lemma keeps_channel_view_water (env : Env) (k : cycler) (i : nat) (mode : pyval)
    (max : pyfloat) (ok ov : bool) :
  keeps (channel_view k i) (water_engine env mode max ok ov).
Proof.
  apply keeps_water_engine.
  - intros d. apply keeps_toggle_relay_blind. reflexivity.
  - intros e. apply keeps_modify_hw. intros w. destruct k; reflexivity.
  - intros b. apply keeps_modify_hw. intros w. destruct k; reflexivity.
  - intros t. apply keeps_modify_hw. intros w. destruct k; reflexivity.
  - intros w. unfold reset_water_mode. destruct (db_reset_ok env); reflexivity.
Qed.

Lemma keeps_channel_view_log (env : Env) (k : cycler) (i : nat) (t hu : option pyfloat)
    (ok : bool) (oks : list bool) :
  keeps (channel_view k i) (log_sensor_data env t hu ok oks).
Proof.
  apply keeps_log_sensor_data.
  - intros row w. unfold db_log. destruct (db_log_ok env); reflexivity.
  - intros x. apply keeps_modify_hw. intros w. destruct k; reflexivity.
Qed.

Lemma manual_tick_keeps_channel (env : Env) (w : World) (k : cycler) (i : nat) :
  val_is (channel_mode k i w) "cycle" = false ->
  channel_view k i (after_tick env w) = channel_view k i w.
Proof.
  intros Hmode. apply tick_keeps.
  - intros pin d _. apply keeps_toggle_relay_blind. reflexivity.
  - intros k' on off j pin Hpin.
    destruct (decide (k' = k /\ j = i)) as [[-> ->]|Hne].
    + apply keeps_cycle_channel_manual; [exact Hmode|].
      intros d. apply keeps_toggle_relay_blind. reflexivity.
    + apply keeps_cycle_channel.
      * intros d. apply keeps_toggle_relay_blind. reflexivity.
      * intros d. apply keeps_channel_view_flip.
        destruct (decide (k' = k)); [right | left]; [intros ->; apply Hne|]; auto.
  - intros. apply keeps_channel_view_water.
  - intros. apply keeps_channel_view_log.
Qed.
(** C10. A tick in which the mode of a pump or circulation-fan channel
    is not "cycle" (so "on", "off" or anything else) leaves the
    channel's [is_on] flag and [last_toggle] as they were, and so does a
    whole run of such ticks.  On the sample override of pump 1 the relay
    is energised while the flag stays false, and back in mode "cycle"
    the duty cycle goes on from the [last_toggle] recorded before the
    override: nothing changes at time 20, the flip comes at time 2700. *)
Theorem manual_override_frame (env : Env) (w : World) (k : cycler) (i : nat) :
  val_is (channel_mode k i w) "cycle" = false ->
  channel_view k i (after_tick env w) = channel_view k i w /\
  (forall envs,
      throughout (fun w0 => val_is (channel_mode k i w0) "cycle" = false) envs w ->
      channel_view k i (run_hardware_loop envs w) = channel_view k i w) /\
  (relay_on override_on 27 = true /\
   channel_view Pumps 0 override_on = (Some false, Some (0 : pyfloat)) /\
   relay_on (override_back 20) 27 = true /\
   channel_view Pumps 0 (override_back 20) = (Some false, Some (0 : pyfloat)) /\
   channel_view Pumps 0 (override_back 2700) = (Some true, Some (2700 : pyfloat))).
Proof.
  intros Hmode. split; [|split].
  - apply manual_tick_keeps_channel, Hmode.
  - clear Hmode env. intros envs. revert w.
    induction envs as [|env envs IH]; intros w Hrun; simpl; [reflexivity|].
    destruct Hrun as [Hmode Hrun]. rewrite (IH _ Hrun).
    apply manual_tick_keeps_channel, Hmode.
  - vm_compute. auto.
Qed.

Lemma manual_override_frame_witness :
  let env := sample_env 10 25 60 LOW LOW LOW HIGH in
  let w := update_settings [("pumpMode1", "on")] (boot 0) in
  val_is (channel_mode Pumps 0 w) "cycle" = false /\
  channel_view Pumps 0 (after_tick env w) = channel_view Pumps 0 w.
Proof.
  intros env w.
  assert (H : val_is (channel_mode Pumps 0 w) "cycle" = false) by (vm_compute; reflexivity).
  split; [exact H|].
  exact (proj1 (manual_override_frame env w Pumps 0 H)).
Defined.



Section Channel.
Context (env : Env) (k : cycler) (i : nat) (pin : Z).
Hypothesis Hpin : cycler_pins k !! i = Some pin.










End Channel.







(** ** The lights schedule *)

Lemma time_cmp_us (a b : pytime) :
  valid_time a -> valid_time b -> time_cmp a b = (us_of a ?= us_of b).
Proof.
  destruct a as [h1 m1 s1 u1], b as [h2 m2 s2 u2].
  unfold valid_time, us_of, time_cmp. simpl. intros Ha Hb.
  destruct (Z.compare_spec h1 h2);
    [destruct (Z.compare_spec m1 m2);
       [destruct (Z.compare_spec s1 s2); [destruct (Z.compare_spec u1 u2)|..]|..]|..];
    symmetry;
    first [apply Z.compare_eq_iff | apply Z.compare_lt_iff | apply Z.compare_gt_iff];
    lia.
Qed.

Lemma time_le_us (a b : pytime) :
  valid_time a -> valid_time b -> (time_le a b = true <-> us_of a <= us_of b).
Proof.
  intros Ha Hb. unfold time_le. rewrite (time_cmp_us a b Ha Hb).
  destruct (Z.compare_spec (us_of a) (us_of b)); split; intros; try lia; congruence.
Qed.

Lemma time_lt_us (a b : pytime) :
  valid_time a -> valid_time b -> (time_lt a b = true <-> us_of a < us_of b).
Proof.
  intros Ha Hb. unfold time_lt. rewrite (time_cmp_us a b Ha Hb).
  destruct (Z.compare_spec (us_of a) (us_of b)); split; intros; try lia; congruence.
Qed.

(** C8. For times of day [now], [on] and [off]: when [on <= off] the
    schedule decision is true iff [on <= now < off], hence never when
    [on = off]; when [on > off] it is true iff [now >= on] or
    [now < off].  With 06:00-22:00 it is true at 12:00 and false at
    23:00; with 20:00-08:00 it is true at 23:00 and at 05:00 and false
    at 12:00. *)
Theorem schedule_window (now on_time off_time : pytime) :
  valid_time now -> valid_time on_time -> valid_time off_time ->
  (us_of on_time <= us_of off_time ->
   (schedule_on now on_time off_time = true <->
    us_of on_time <= us_of now < us_of off_time)) /\
  (us_of on_time = us_of off_time -> schedule_on now on_time off_time = false) /\
  (us_of off_time < us_of on_time ->
   (schedule_on now on_time off_time = true <->
    us_of on_time <= us_of now \/ us_of now < us_of off_time)) /\
  (strptime_HM "06:00" = Some (mk_time 6 0 0 0) /\
   strptime_HM "22:00" = Some (mk_time 22 0 0 0) /\
   strptime_HM "20:00" = Some (mk_time 20 0 0 0) /\
   strptime_HM "08:00" = Some (mk_time 8 0 0 0) /\
   schedule_on (mk_time 12 0 0 0) (mk_time 6 0 0 0) (mk_time 22 0 0 0) = true /\
   schedule_on (mk_time 23 0 0 0) (mk_time 6 0 0 0) (mk_time 22 0 0 0) = false /\
   schedule_on (mk_time 23 0 0 0) (mk_time 20 0 0 0) (mk_time 8 0 0 0) = true /\
   schedule_on (mk_time 5 0 0 0) (mk_time 20 0 0 0) (mk_time 8 0 0 0) = true /\
   schedule_on (mk_time 12 0 0 0) (mk_time 20 0 0 0) (mk_time 8 0 0 0) = false).
Proof.
  intros Hn Hon Hoff.
  pose proof (time_le_us on_time off_time Hon Hoff) as Hle.
  pose proof (time_le_us on_time now Hon Hn) as Hle1.
  pose proof (time_lt_us now off_time Hn Hoff) as Hlt.
  assert (Hnormal : us_of on_time <= us_of off_time ->
            (schedule_on now on_time off_time = true <->
             us_of on_time <= us_of now < us_of off_time)).
  { intros H. unfold schedule_on. rewrite (proj2 Hle H), andb_true_iff. tauto. }
  split; [exact Hnormal | split; [|split]].
  - intros Heq. apply not_true_iff_false. rewrite Hnormal by lia. lia.
  - intros H. unfold schedule_on, time_ge.
    destruct (time_le on_time off_time) eqn:E;
      [apply (time_le_us _ _ Hon Hoff) in E; lia|].
    rewrite orb_true_iff. tauto.
  - repeat split; reflexivity.
Qed.

Lemma schedule_window_witness :
  schedule_on (mk_time 21 59 59 999999) (mk_time 6 0 0 0) (mk_time 22 0 0 0) = true.
Proof.
  refine (proj2 (proj1 (schedule_window (mk_time 21 59 59 999999) (mk_time 6 0 0 0)
                          (mk_time 22 0 0 0) _ _ _) _) _);
    unfold valid_time, us_of; simpl; lia.
Defined.
(** ** Telemetry *)

Lemma telemetry_calls_app (j1 j2 : list db_call) :
  telemetry_calls (j1 ++ j2) = (telemetry_calls j1 ++ telemetry_calls j2)%list.
Proof.
  induction j1 as [|[row ok|ok] j1 IH]; simpl; [reflexivity | | exact IH].
  rewrite IH. reflexivity.
Qed.

Lemma keeps_telemetry_view_water (env : Env) (app : gmap string pyval) :
  keeps telemetry_view (water_control env app).
Proof.
  apply keeps_water_control. intros mode max ok ov. apply keeps_water_engine.
  - intros d. apply keeps_toggle_relay_blind. reflexivity.
  - intros e. apply keeps_modify_hw. reflexivity.
  - intros b. apply keeps_modify_hw. reflexivity.
  - intros t. apply keeps_modify_hw. reflexivity.
  - intros w. unfold reset_water_mode, telemetry_view.
    destruct (db_reset_ok env); simpl; rewrite telemetry_calls_app, app_nil_r;
      reflexivity.
Qed.

Lemma aggregate_cases (devices : list dht_result) :
  aggregate devices = (None, None) \/
  exists t hu, aggregate devices = (Some t, Some hu).
Proof.
  unfold aggregate. destruct (read_dht devices) as [[|t ts] [|hu hus]]; eauto.
Qed.

Lemma water_levels_ok_three (env : Env) (w : World) (oks : list bool) :
  water_levels_ok env w = Some oks -> exists f1 f2 f3, oks = [f1; f2; f3].
Proof.
  unfold water_levels_ok, FLOAT_SENSORS_PINS. simpl.
  destruct (GPIO_input env w 17); simpl; [|discriminate].
  destruct (GPIO_input env w 23); simpl; [|discriminate].
  destruct (GPIO_input env w 24); simpl; [|discriminate].
  intros [= <-]. eauto.
Qed.

(** A tick that runs to its end reached the telemetry step with the
    telemetry state of its start. *)
Lemma tick_completed_telemetry (env : Env) (w : World) :
  completes env w = true ->
  exists w6 ok f1 f2 f3,
    telemetry_view w6 = telemetry_view w /\
    water_levels_ok env w = Some [f1; f2; f3] /\
    ok = forallb id [f1; f2; f3] /\
    log_sensor_data env (fst (aggregate (dht_devices env)))
      (snd (aggregate (dht_devices env))) ok [f1; f2; f3] w6
    = (Val tt, after_tick env w).
Proof.
  intros H. pose proof H as Hc.
  apply completes_inv in H
    as (w2 & w3 & w4 & t & hu & w5 & ok & oks & w6 & _ & E1 & E2 & E3 & E4 & E5 & E6).
  destruct (tick_completed_water env w Hc) as (_ & _ & oks' & _ & _ & _ & Hoks' & _ & _).
  assert (K14 : telemetry_view w5 = telemetry_view w).
  { eapply (actuators_keep telemetry_view); eauto.
    - intros pin d _ _. apply keeps_toggle_relay_blind. reflexivity.
    - intros k i pin d _. apply keeps_cycler_flip_blind.
      + apply keeps_toggle_relay_blind. reflexivity.
      + intros l w'. destruct k; reflexivity.
      + intros l w'. destruct k; reflexivity. }
  pose proof (keeps_telemetry_view_water env (snapshot w) w5) as K5.
  rewrite E5 in K5. simpl in K5.
  assert (Hagg : aggregate (dht_devices env) = (t, hu)).
  { unfold sensors_and_exhaust in E4.
    destruct (aggregate_cases (dht_devices env)) as [Ha|(t' & hu' & Ha)];
      rewrite Ha in *;
      [|repeat (apply bind_val in E4 as (? & ? & _ & E4))];
      unfold ret in E4; congruence. }
  pose proof E5 as E5'.
  apply water_control_val in E5' as (max & ov & Hoks & -> & _).
  assert (Hsame : oks = oks').
  { destruct (water_control_val _ _ _ _ _ _ E5) as (_ & _ & H5 & _).
    clear -H5 Hoks' E1 E2 E3 E4.
    assert (Hs : forall q, q ∈ OVERFLOW_SENSOR_PIN :: FLOAT_SENSORS_PINS ->
                           GPIO_input env w5 q = GPIO_input env w q).
    { intros q Hq. eapply sensors_unchanged; eauto. }
    unfold water_levels_ok, FLOAT_SENSORS_PINS in *. simpl in *.
    rewrite !Hs in H5 by (unfold OVERFLOW_SENSOR_PIN, FLOAT_SENSORS_PINS;
                          rewrite !elem_of_cons; auto 10).
    congruence. }
  subst oks'. destruct (water_levels_ok_three env w oks Hoks') as (f1 & f2 & f3 & ->).
  exists w6, (forallb id [f1; f2; f3]), f1, f2, f3.
  rewrite Hagg. simpl fst. simpl snd. repeat split; try assumption. congruence.
Qed.
Lemma sections_ignore_db_log_ok (b : bool) (env : Env) (app : gmap string pyval) :
  load_settings (with_db_log_ok b env) = load_settings env /\
  lights_control (with_db_log_ok b env) app = lights_control env app /\
  (forall k, cycle_control (with_db_log_ok b env) app k = cycle_control env app k) /\
  sensors_and_exhaust (with_db_log_ok b env) app = sensors_and_exhaust env app /\
  water_control (with_db_log_ok b env) app = water_control env app.
Proof.
  destruct env. repeat split; reflexivity.
Qed.

Lemma bind_same_end {A B C : Type} (m : M A) (f : A -> M B) (g : A -> M C) :
  (forall a w, match fst (f a w) with Val _ => true | Raise => false end
               = match fst (g a w) with Val _ => true | Raise => false end) ->
  forall w, match fst (bind m f w) with Val _ => true | Raise => false end
            = match fst (bind m g w) with Val _ => true | Raise => false end.
Proof.
  intros H w. unfold bind. destruct (m w) as [[a|] w1]; [apply H | reflexivity].
Qed.

(** Whether a tick runs to its end does not depend on the fate of the
    telemetry transaction. *)
Lemma completes_whatever_db_log (b : bool) (env : Env) (w : World) :
  completes (with_db_log_ok b env) w = completes env w.
Proof.
  unfold completes, tick, control.
  destruct (sections_ignore_db_log_ok b env (snapshot w)) as (-> & _).
  apply bind_same_end. clear w. intros app w.
  destruct (sections_ignore_db_log_ok b env app) as (_ & -> & Hc & -> & ->).
  rewrite !Hc.
  do 3 (apply bind_same_end; clear w; intros _ w).
  apply bind_same_end. clear w. intros [t hu] w.
  apply bind_same_end. clear w. intros [ok oks] w.
  destruct (log_sensor_data_total (with_db_log_ok b env) t hu ok oks w) as [w1 ->].
  destruct (log_sensor_data_total env t hu ok oks w) as [w2 ->].
  reflexivity.
Qed.
Lemma telemetry_view_eq (a b : World) :
  telemetry_view a = telemetry_view b ->
  last_sensor_log_time (hardware_state a) = last_sensor_log_time (hardware_state b) /\
  sensor_readings a = sensor_readings b /\ latest_state a = latest_state b /\
  telemetry_calls (journal a) = telemetry_calls (journal b).
Proof. unfold telemetry_view. intros [= -> -> -> ->]. auto. Qed.

Lemma read_dht_readings (devices : list dht_result) :
  read_dht devices
  = (fst <$> omap dht_reading devices, snd <$> omap dht_reading devices).
Proof.
  induction devices as [|d r IH]; [reflexivity|].
  simpl. rewrite IH. destruct d as [[t|] [hu|]| |]; reflexivity.
Qed.

(** The averages are taken over the devices that gave both values, and
    there is no reading when no device did. *)
Lemma aggregate_readings (devices : list dht_result) :
  aggregate devices
  = match omap dht_reading devices with
    | [] => (None, None)
    | readings => (Some (mean (fst <$> readings)), Some (mean (snd <$> readings)))
    end.
Proof.
  unfold aggregate. rewrite read_dht_readings.
  destruct (omap dht_reading devices) as [|[t hu] rs]; reflexivity.
Qed.

(** C9, as amended.  On a tick that runs to its end, with [readings]
    the pairs of the devices that gave both values: one telemetry
    transaction (a history row and the overwrite of the latest row) is
    attempted iff [now - last_log_time >= 60], the difference being the
    float difference that line 388 computes, and [readings] is not
    empty.  The row holds the means of the temperatures and of the
    humidities and the flags of the water level and of the three float
    sensors.  If the transaction succeeds the row is appended, the
    latest row is overwritten and [last_log_time] becomes [now]; if it
    fails nothing is stored and [last_log_time] stays.  When the write
    is not due or no device gave both values, nothing of the telemetry
    changes.  Whether the tick runs to its end does not depend on the
    fate of the transaction. *)
Theorem telemetry_throttle (env : Env) (w : World) :
  completes env w = true ->
  let w' := after_tick env w in
  let readings := omap dht_reading (dht_devices env) in
  (telemetry_calls (journal w') <> telemetry_calls (journal w) <->
   log_due env w = true /\ readings <> []) /\
  (log_due env w = true -> readings <> [] ->
   exists f1 f2 f3 row,
     water_levels_ok env w = Some [f1; f2; f3] /\
     row = mk_row (mean (fst <$> readings)) (mean (snd <$> readings))
             (flag (f1 && f2 && f3)) (flag f1) (flag f2) (flag f3) /\
     telemetry_calls (journal w')
     = (telemetry_calls (journal w) ++ [(row, db_log_ok env)])%list /\
     (db_log_ok env = true ->
      sensor_readings w' = (sensor_readings w ++ [row])%list /\
      latest_state w' = alter (fun _ => row) "sensors" (latest_state w) /\
      last_sensor_log_time (hardware_state w') = monotonic_time env) /\
     (db_log_ok env = false ->
      sensor_readings w' = sensor_readings w /\
      latest_state w' = latest_state w /\
      last_sensor_log_time (hardware_state w')
      = last_sensor_log_time (hardware_state w))) /\
  (log_due env w = false \/ readings = [] ->
   telemetry_view w' = telemetry_view w) /\
  (forall b, completes (with_db_log_ok b env) w = true).
Proof.
  intros Hc w' readings. subst w' readings.
  destruct (tick_completed_telemetry env w Hc)
    as (w6 & ok & f1 & f2 & f3 & Hv & Hoks & Hok & Hlog).
  assert (Hdue : log_due env w6 = log_due env w).
  { unfold log_due. apply telemetry_view_eq in Hv as (-> & _). reflexivity. }
  unfold log_sensor_data in Hlog. unfold bind at 1, get_hw in Hlog.
  fold (log_due env w6) in Hlog. rewrite Hdue in Hlog.
  rewrite (aggregate_readings (dht_devices env)) in Hlog.
  assert (Hskip : log_due env w = false \/ omap dht_reading (dht_devices env) = [] ->
                  telemetry_view (after_tick env w) = telemetry_view w).
  { intros [Hd|Ha]; [rewrite Hd in Hlog | rewrite Ha in Hlog; simpl in Hlog];
      [|destruct (log_due env w)]; unfold pass, ret in Hlog; congruence. }
  assert (Hdo : log_due env w = true -> omap dht_reading (dht_devices env) <> [] ->
      exists g1 g2 g3 row,
        water_levels_ok env w = Some [g1; g2; g3] /\
        row = mk_row (mean (fst <$> omap dht_reading (dht_devices env)))
                (mean (snd <$> omap dht_reading (dht_devices env)))
                (flag (g1 && g2 && g3)) (flag g1) (flag g2) (flag g3) /\
        telemetry_calls (journal (after_tick env w))
        = (telemetry_calls (journal w) ++ [(row, db_log_ok env)])%list /\
        (db_log_ok env = true ->
         sensor_readings (after_tick env w) = (sensor_readings w ++ [row])%list /\
         latest_state (after_tick env w) = alter (fun _ => row) "sensors" (latest_state w) /\
         last_sensor_log_time (hardware_state (after_tick env w)) = monotonic_time env) /\
        (db_log_ok env = false ->
         sensor_readings (after_tick env w) = sensor_readings w /\
         latest_state (after_tick env w) = latest_state w /\
         last_sensor_log_time (hardware_state (after_tick env w))
         = last_sensor_log_time (hardware_state w))).
  { intros Hd Ha. rewrite Hd in Hlog.
    destruct (omap dht_reading (dht_devices env)) as [|r rs]; [congruence|].
    assert (Hflag : ok = f1 && f2 && f3).
    { rewrite Hok. destruct f1, f2, f3; reflexivity. }
    rewrite Hflag in Hlog. simpl in Hlog.
    apply telemetry_view_eq in Hv as (Hl & Hr & Hs & Hj).
    unfold bind, db_log, modify_hw, pass, ret in Hlog.
    exists f1, f2, f3. eexists. split; [exact Hoks|]. split; [reflexivity|].
    destruct (db_log_ok env); simpl in Hlog;
      injection Hlog as <-; simpl; rewrite telemetry_calls_app, Hj, ?Hr, ?Hs, ?Hl;
      simpl; (split; [reflexivity|]); split; intros; try discriminate; auto. }
  split; [|split; [exact Hdo | split; [exact Hskip|]]].
  - split.
    + intros Hne. destruct (log_due env w) eqn:Hd.
      * split; [reflexivity|]. intros Ha. apply Hne.
        apply telemetry_view_eq, Hskip. auto.
      * exfalso. apply Hne. apply telemetry_view_eq, Hskip. auto.
    + intros [Hd Ha].
      destruct (Hdo Hd Ha) as (g1 & g2 & g3 & row & _ & _ & -> & _).
      intros Heq. apply (f_equal length) in Heq. rewrite length_app in Heq.
      simpl in Heq. lia.
  - intros b. rewrite completes_whatever_db_log. exact Hc.
Qed.

(** At start-up a write is due.  A tick whose transaction fails leaves
    [last_log_time] as it was.  With one device of three at fault and
    the readings (24, 60) and (26, 62), the row holds (25, 61) and the
    flags of the sensors, and [last_log_time] becomes the time of the
    tick.  With every device at fault nothing is attempted. *)
Lemma telemetry_throttle_witness :
  let env := with_db_log_ok false (sample_env 10 25 60 LOW LOW LOW HIGH) in
  let one_fault :=
    mk_env (mk_time 12 0 0 0) 10
      [DhtValues (Some (24 : pyfloat)) (Some (60 : pyfloat)); DhtRuntimeError;
       DhtValues (Some (26 : pyfloat)) (Some (62 : pyfloat))]
      (inputs LOW HIGH LOW HIGH) true true true in
  let all_fault :=
    mk_env (mk_time 12 0 0 0) 10
      [DhtRuntimeError; DhtOtherError; DhtValues None (Some (60 : pyfloat))]
      (inputs LOW LOW LOW HIGH) true true true in
  completes env (boot 0) = true /\
  telemetry_calls (journal (after_tick env (boot 0)))
  <> telemetry_calls (journal (boot 0)) /\
  last_sensor_log_time (hardware_state (after_tick env (boot 0)))
  = last_sensor_log_time (hardware_state (boot 0)) /\
  telemetry_calls (journal (after_tick one_fault (boot 0)))
  = [(mk_row 25 61 0 1 0 1, true)] /\
  last_sensor_log_time (hardware_state (after_tick one_fault (boot 0))) = 10 /\
  telemetry_view (after_tick all_fault (boot 0)) = telemetry_view (boot 0).
Proof.
  intros env one_fault all_fault.
  assert (Hc : completes env (boot 0) = true) by (vm_compute; reflexivity).
  assert (Hc1 : completes one_fault (boot 0) = true) by (vm_compute; reflexivity).
  assert (Hc0 : completes all_fault (boot 0) = true) by (vm_compute; reflexivity).
  assert (Hdue : log_due one_fault (boot 0) = true) by (vm_compute; reflexivity).
  assert (Hsome : omap dht_reading (dht_devices one_fault) <> [])
    by (vm_compute; discriminate).
  split; [exact Hc|]. split; [|split; [|split; [|split]]].
  - apply (proj2 (proj1 (telemetry_throttle env (boot 0) Hc))).
    split; [vm_compute; reflexivity | vm_compute; discriminate].
  - destruct (proj1 (proj2 (telemetry_throttle env (boot 0) Hc)))
      as (f1 & f2 & f3 & row & _ & _ & _ & _ & Hfail);
      [vm_compute; reflexivity | vm_compute; discriminate |].
    apply Hfail. reflexivity.
  - destruct (proj1 (proj2 (telemetry_throttle one_fault (boot 0) Hc1)) Hdue Hsome)
      as (f1 & f2 & f3 & row & Hf & -> & -> & _).
    vm_compute in Hf. injection Hf as <- <- <-. vm_compute. reflexivity.
  - destruct (proj1 (proj2 (telemetry_throttle one_fault (boot 0) Hc1)) Hdue Hsome)
      as (f1 & f2 & f3 & row & _ & _ & _ & Hok & _).
    apply Hok. reflexivity.
  - apply (proj1 (proj2 (proj2 (telemetry_throttle all_fault (boot 0) Hc0)))).
    right. reflexivity.
Defined.

(** The claim C9 as stated fails.  At time 10 after start-up a write is
    due and both devices read (25, 60); with "abc" stored under
    [maxFillTime] the tick is abandoned at line 340, before line 388,
    and no transaction is attempted. *)
Lemma telemetry_missed_by_abandoned_tick :
  let w := update_settings [("maxFillTime", "abc")] (boot 0) in
  let env := sample_env 10 25 60 LOW LOW LOW HIGH in
  reachable w /\
  log_due env w = true /\
  aggregate (dht_devices env) = (Some (25 : pyfloat), Some (60 : pyfloat)) /\
  completes env w = false /\
  telemetry_calls (journal (after_tick env w)) = [] /\
  sensor_readings (after_tick env w) = [] /\
  last_sensor_log_time (hardware_state (after_tick env w))
  = last_sensor_log_time (hardware_state w).
Proof.
  intros w env. split; [apply reach_write, reach_boot|].
  vm_compute. repeat split; reflexivity.
Qed.

(** ** The exhaust fans *)

(** Lines 314-318 as a function of the previous state: the three rules
    in their order of precedence. *)
Lemma should_auto_on_rules (prev_on : bool) (t hu : pyfloat) (th tl hh hl : pyfloat) :
  (fgt t th = true \/ fgt hu hh = true ->
   should_auto_on prev_on t hu th tl hh hl = true) /\
  (fgt t th = false -> fgt hu hh = false ->
   flt t tl = true -> flt hu hl = true ->
   should_auto_on prev_on t hu th tl hh hl = false) /\
  (fgt t th = false -> fgt hu hh = false ->
   flt t tl = false \/ flt hu hl = false ->
   should_auto_on prev_on t hu th tl hh hl = prev_on).
Proof.
  unfold should_auto_on. repeat split.
  - intros [-> | ->]; rewrite ?orb_true_r; reflexivity.
  - intros -> -> -> ->. reflexivity.
  - intros -> -> [-> | ->]; rewrite ?andb_false_r; reflexivity.
Qed.

(** No tick ever writes [hardware_state["exhaust_fans_on"]]. *)
Lemma exhaust_fans_on_never_written (env : Env) (w : World) :
  exhaust_fans_on (hardware_state (after_tick env w))
  = exhaust_fans_on (hardware_state w).
Proof.
  apply (tick_keeps (fun w => exhaust_fans_on (hardware_state w))).
  - intros pin d _. apply keeps_toggle_relay_blind. reflexivity.
  - intros k on off i pin _. apply keeps_cycle_channel.
    + intros d. apply keeps_toggle_relay_blind. reflexivity.
    + intros d. apply keeps_cycler_flip_blind.
      * apply keeps_toggle_relay_blind. reflexivity.
      * intros l w'. destruct k; reflexivity.
      * intros l w'. destruct k; reflexivity.
  - intros mode max ok ov. apply keeps_water_engine.
    + intros d. apply keeps_toggle_relay_blind. reflexivity.
    + intros e. apply keeps_modify_hw. reflexivity.
    + intros b. apply keeps_modify_hw. reflexivity.
    + intros t. apply keeps_modify_hw. reflexivity.
    + intros w'. unfold reset_water_mode. destruct (db_reset_ok env); reflexivity.
  - intros t hu ok oks. apply keeps_log_sensor_data.
    + intros row w'. unfold db_log. destruct (db_log_ok env); reflexivity.
    + intros x. apply keeps_modify_hw. reflexivity.
Qed.

(** C2. The dead-band rule holds the value of
    [any(hardware_state["exhaust_fans_on"])], and with [prev_on = true],
    25 degrees and 50 % that value is kept; but no tick writes that
    list, so it stays all false from start-up.  On default settings a
    tick at 30 degrees switches both exhaust fans on, and the next tick,
    at 25 degrees and 50 % (in the dead-band), switches them off
    instead of holding them on. *)
Theorem exhaust_dead_band_drops :
  should_auto_on true 25 50 27 23 65 55 = true /\
  (forall env w, exhaust_fans_on (hardware_state (after_tick env w))
                 = exhaust_fans_on (hardware_state w)) /\
  completes (sample_env 10 30 50 LOW LOW LOW HIGH) (boot 0) = true /\
  relay_on exhaust_hot 13 = true /\ relay_on exhaust_hot 16 = true /\
  exhaust_fans_on (hardware_state exhaust_hot) = [false; false] /\
  completes (sample_env 12 25 50 LOW LOW LOW HIGH) exhaust_hot = true /\
  relay_on exhaust_dead_band 13 = false /\ relay_on exhaust_dead_band 16 = false.
Proof.
  split; [vm_compute; reflexivity|].
  split; [exact exhaust_fans_on_never_written|].
  vm_compute. repeat split; reflexivity.
Qed.

(** ** Settings and the end of a tick *)

Lemma runs_bind {A B : Type} (I : World -> Prop) (m : M A) (f : A -> M B) :
  runs I m -> (forall a, runs I (f a)) -> runs I (bind m f).
Proof.
  intros Hm Hf w Hw. destruct (Hm w Hw) as (a & w1 & E & H1).
  rewrite (bind_step _ _ _ _ _ E). apply Hf, H1.
Qed.

Lemma runs_ret {A : Type} (I : World -> Prop) (a : A) : runs I (ret a).
Proof. intros w Hw. exists a, w. auto. Qed.

Lemma runs_for_enumerate {A : Type} (I : World -> Prop) (l : list A)
    (body : nat -> A -> M unit) :
  forall n,
    (forall i x, l !! i = Some x -> runs I (body (n + i)%nat x)) ->
    runs I (for_enumerate n l body).
Proof.
  induction l as [|x l IH]; intros n Hb; simpl.
  - apply runs_ret.
  - apply runs_bind.
    + specialize (Hb 0%nat x eq_refl). rewrite Nat.add_0_r in Hb. exact Hb.
    + intros _. apply IH. intros i y Hy.
      specialize (Hb (S i) y Hy). rewrite Nat.add_succ_r in Hb. exact Hb.
Qed.

Lemma runs_keeps {A T : Type} (obs : World -> T) (v : T) (m : M A) :
  keeps obs m -> (forall w, exists a w', m w = (Val a, w')) ->
  runs (fun w => obs w = v) m.
Proof.
  intros Hk Ht w Hw. destruct (Ht w) as (a & w' & E).
  exists a, w'. split; [exact E|]. specialize (Hk w). rewrite E in Hk. simpl in Hk.
  congruence.
Qed.

Lemma drive_relay_total (env : Env) (pin : Z) (d : bool) (w : World) :
  exists a w', drive_relay env pin d w = (Val a, w').
Proof.
  unfold drive_relay, bind. destruct (toggle_relay_total env pin d w) as [r Hr].
  destruct (toggle_relay env pin d w) as [r' w1]. simpl in Hr. subst r'.
  unfold pass, ret. eauto.
Qed.

Lemma lights_control_total (env : Env) (app : gmap string pyval) (w : World) :
  time_of_val (setting app "lightsOnTime" (VStr "06:00")) <> None ->
  time_of_val (setting app "lightsOffTime" (VStr "22:00")) <> None ->
  exists w', lights_control env app w = (Val tt, w').
Proof.
  intros Hon Hoff. unfold lights_control.
  destruct (time_of_val (setting app "lightsOnTime" _)) as [on_time|]; [|congruence].
  destruct (time_of_val (setting app "lightsOffTime" _)) as [off_time|]; [|congruence].
  simpl. unfold bind at 1 2. simpl.
  destruct (runs_for_enumerate (fun _ => True) LIGHTS_PINS
              (fun i pin =>
                 drive_relay env pin
                   (if val_is (setting app (numbered "lightsMode" i) (VStr "schedule"))
                              "schedule"
                    then schedule_on (current_time_for_schedule env) on_time off_time
                    else if val_is (setting app (numbered "lightsMode" i)
                                      (VStr "schedule")) "on"
                         then true else false)) 0%nat) with w
    as ([] & w' & E & _); [|exact I|eauto].
  intros i pin _ w1 _.
  destruct (drive_relay_total env pin
              (if val_is (setting app (numbered "lightsMode" (0 + i)) (VStr "schedule"))
                         "schedule"
               then schedule_on (current_time_for_schedule env) on_time off_time
               else if val_is (setting app (numbered "lightsMode" (0 + i))
                                 (VStr "schedule")) "on"
                    then true else false) w1) as (a & w2 & E).
  exists a, w2. auto.
Qed.

Lemma keeps_cycle_lengths_flip (env : Env) (k : cycler) (i : nat) (pin : Z) (d : bool) :
  keeps cycle_lengths (cycler_flip env k i pin d).
Proof.
  unfold cycler_flip.
  apply keeps_bind; [apply keeps_toggle_relay_blind; reflexivity | intros r].
  apply keeps_bind; [|intros _]; apply keeps_modify_hw; intros w;
    unfold cycle_lengths; destruct k; simpl; rewrite length_insert; reflexivity.
Qed.

Lemma keeps_cycle_lengths_channel (env : Env) (app : gmap string pyval) (k : cycler)
    (on_duration off_duration : pyfloat) (i : nat) (pin : Z) :
  keeps cycle_lengths (cycle_channel env app k on_duration off_duration i pin).
Proof.
  apply keeps_cycle_channel.
  - intros d. apply keeps_toggle_relay_blind. reflexivity.
  - intros d. apply keeps_cycle_lengths_flip.
Qed.

Lemma cycler_flip_total (env : Env) (k : cycler) (i : nat) (pin : Z) (d : bool)
    (w : World) :
  exists w', cycler_flip env k i pin d w = (Val tt, w').
Proof.
  unfold cycler_flip, bind. destruct (toggle_relay_total env pin d w) as [r Hr].
  destruct (toggle_relay env pin d w) as [r' w1]. simpl in Hr. subst r'.
  unfold modify_hw. simpl. eauto.
Qed.

Lemma cycle_channel_runs (env : Env) (app : gmap string pyval) (k : cycler)
    (on_duration off_duration : pyfloat) (i : nat) (pin : Z) :
  cycler_pins k !! i = Some pin ->
  runs full_lengths (cycle_channel env app k on_duration off_duration i pin).
Proof.
  intros Hpin w Hw.
  assert (Ht : exists w', cycle_channel env app k on_duration off_duration i pin w
                          = (Val tt, w')).
  { apply lookup_lt_Some in Hpin. unfold full_lengths, cycle_lengths in Hw.
    unfold cycle_channel.
    destruct (val_is _ "cycle").
    - assert (Hi : is_Some (cycler_is_on k (hardware_state w) !! i)).
      { apply lookup_lt_is_Some. destruct k; simpl in *; congruence. }
      assert (Hl : is_Some (cycler_last_toggle k (hardware_state w) !! i)).
      { apply lookup_lt_is_Some. destruct k; simpl in *; congruence. }
      destruct Hi as [is_on Hi], Hl as [last Hl].
      unfold bind at 1 2 3, get_hw, item. rewrite Hi, Hl. simpl.
      destruct is_on;
        match goal with |- context [if ?c then _ else _] => destruct c end;
        first [apply cycler_flip_total | unfold pass, ret; eauto].
    - destruct (val_is _ "on");
        [destruct (drive_relay_total env pin true w) as ([] & w' & E)
        |destruct (drive_relay_total env pin false w) as ([] & w' & E)]; eauto. }
  destruct Ht as [w' E]. exists tt, w'. split; [exact E|].
  pose proof (keeps_cycle_lengths_channel env app k on_duration off_duration i pin w) as K.
  rewrite E in K. simpl in K. unfold full_lengths. congruence.
Qed.

Lemma cycle_control_runs (env : Env) (app : gmap string pyval) (k : cycler) :
  py_float (cycler_on_duration k app) <> None ->
  py_float (cycler_off_duration k app) <> None ->
  runs full_lengths (cycle_control env app k).
Proof.
  intros Hon Hoff. unfold cycle_control.
  destruct (py_float (cycler_on_duration k app)) as [on_duration|]; [|congruence].
  destruct (py_float (cycler_off_duration k app)) as [off_duration|]; [|congruence].
  apply runs_bind; [apply runs_ret | intros ?].
  apply runs_bind; [apply runs_ret | intros ?].
  apply runs_for_enumerate. intros i pin Hpin. apply cycle_channel_runs, Hpin.
Qed.

Lemma runs_or_raise {A : Type} (I : World -> Prop) (o : option A) :
  o <> None -> runs I (or_raise o).
Proof. intros H. destruct o; [apply runs_ret | congruence]. Qed.

Lemma runs_drive_relay (env : Env) (pin : Z) (d : bool) :
  runs (fun _ => True) (drive_relay env pin d).
Proof.
  intros w _. destruct (drive_relay_total env pin d w) as (a & w' & E). eauto.
Qed.

Lemma sensors_and_exhaust_total (env : Env) (app : gmap string pyval) (w : World) :
  (fst (aggregate (dht_devices env)) <> None ->
   py_float (setting app "exhaustFanTempHigh" (VFloat (float_literal "27.0"))) <> None /\
   py_float (setting app "exhaustFanTempLow" (VFloat (float_literal "23.0"))) <> None /\
   py_float (setting app "exhaustFanHumidHigh" (VFloat (float_literal "65.0"))) <> None /\
   py_float (setting app "exhaustFanHumidLow" (VFloat (float_literal "55.0"))) <> None) ->
  exists r w', sensors_and_exhaust env app w = (Val r, w').
Proof.
  intros H.
  assert (R : runs (fun _ => True) (sensors_and_exhaust env app)).
  { unfold sensors_and_exhaust.
    destruct (aggregate_cases (dht_devices env)) as [Ha|(t & hu & Ha)]; rewrite Ha in *.
    { apply runs_ret. }
    destruct H as (H1 & H2 & H3 & H4); [discriminate|].
    do 4 (apply runs_bind; [apply runs_or_raise; assumption | intros ?]).
    apply runs_bind; [intros w0 _; unfold get_hw; eauto | intros h].
    apply runs_bind; [|intros _; apply runs_ret].
    apply runs_for_enumerate. intros i pin _. simpl.
    destruct (val_is _ "auto"); [|destruct (val_is _ "on")]; apply runs_drive_relay. }
  destruct (R w I) as (r & w' & E & _). eauto.
Qed.

Lemma water_control_total (env : Env) (app : gmap string pyval) (w : World) :
  water_levels_ok env w <> None ->
  overflow_detected env w <> None ->
  py_float (setting app "maxFillTime" (VInt 600)) <> None ->
  exists r w', water_control env app w = (Val r, w').
Proof.
  unfold water_levels_ok, overflow_detected, FLOAT_SENSORS_PINS. simpl.
  intros Hf Hov Hmax.
  assert (Hin : exists l1 l2 l3 lo,
             GPIO_input env w 17 = Some l1 /\ GPIO_input env w 23 = Some l2 /\
             GPIO_input env w 24 = Some l3 /\
             GPIO_input env w OVERFLOW_SENSOR_PIN = Some lo).
  { revert Hf Hov.
    destruct (GPIO_input env w 17); simpl; [|congruence].
    destruct (GPIO_input env w 23); simpl; [|congruence].
    destruct (GPIO_input env w 24); simpl; [|congruence].
    destruct (GPIO_input env w OVERFLOW_SENSOR_PIN); simpl; [|congruence].
    eauto 10. }
  destruct Hin as (l1 & l2 & l3 & lo & E1 & E2 & E3 & Eo).
  destruct (py_float (setting app "maxFillTime" (VInt 600))) as [max|] eqn:Em;
    [|congruence].
  unfold water_control, FLOAT_SENSORS_PINS, read_inputs.
  unfold bind, ret. rewrite E1. simpl. rewrite E2. simpl. rewrite E3. simpl.
  rewrite Eo. simpl. rewrite Em. simpl.
  match goal with
  | |- context [water_engine env ?m ?x ?ok ?ov w] =>
      destruct (water_engine_total env m x ok ov w) as [w' ->]
  end.
  eauto.
Qed.

Lemma parses_time_true (w : World) (key : string) (d : pyval) :
  parses_time w key d = true <-> time_of_val (setting (snapshot w) key d) <> None.
Proof.
  unfold parses_time. destruct (time_of_val _); split; congruence.
Qed.

Lemma parses_float_true (w : World) (key : string) (d : pyval) :
  parses_float w key d = true <-> py_float (setting (snapshot w) key d) <> None.
Proof.
  unfold parses_float. destruct (py_float _); split; congruence.
Qed.

Lemma or_raise_val {A : Type} (o : option A) (w w' : World) (a : A) :
  or_raise o w = (Val a, w') -> o = Some a /\ w' = w.
Proof. destruct o; simpl; unfold ret, raise; intros [= <- <-] || intros [=]; auto. Qed.

Lemma lights_control_parses (env : Env) (app : gmap string pyval) (w w' : World) :
  lights_control env app w = (Val tt, w') ->
  time_of_val (setting app "lightsOnTime" (VStr "06:00")) <> None /\
  time_of_val (setting app "lightsOffTime" (VStr "22:00")) <> None.
Proof.
  unfold lights_control. intros H.
  apply bind_val in H as (on_time & w1 & E1 & H). apply or_raise_val in E1 as [-> _].
  apply bind_val in H as (off_time & w2 & E2 & H). apply or_raise_val in E2 as [-> _].
  split; discriminate.
Qed.

Lemma cycle_control_parses (env : Env) (app : gmap string pyval) (k : cycler)
    (w w' : World) :
  cycle_control env app k w = (Val tt, w') ->
  py_float (cycler_on_duration k app) <> None /\
  py_float (cycler_off_duration k app) <> None.
Proof.
  unfold cycle_control. intros H.
  apply bind_val in H as (on_d & w1 & E1 & H). apply or_raise_val in E1 as [-> _].
  apply bind_val in H as (off_d & w2 & E2 & H). apply or_raise_val in E2 as [-> _].
  split; discriminate.
Qed.

Lemma sensors_and_exhaust_parses (env : Env) (app : gmap string pyval) (w w' : World)
    (r : option pyfloat * option pyfloat) :
  sensors_and_exhaust env app w = (Val r, w') ->
  fst (aggregate (dht_devices env)) <> None ->
  py_float (setting app "exhaustFanTempHigh" (VFloat (float_literal "27.0"))) <> None /\
  py_float (setting app "exhaustFanTempLow" (VFloat (float_literal "23.0"))) <> None /\
  py_float (setting app "exhaustFanHumidHigh" (VFloat (float_literal "65.0"))) <> None /\
  py_float (setting app "exhaustFanHumidLow" (VFloat (float_literal "55.0"))) <> None.
Proof.
  unfold sensors_and_exhaust. intros H Ha.
  destruct (aggregate_cases (dht_devices env)) as [Hn|(t & hu & Hs)];
    [rewrite Hn in Ha; simpl in Ha; congruence|].
  rewrite Hs in H.
  apply bind_val in H as (? & ? & E1 & H). apply or_raise_val in E1 as [-> _].
  apply bind_val in H as (? & ? & E2 & H). apply or_raise_val in E2 as [-> _].
  apply bind_val in H as (? & ? & E3 & H). apply or_raise_val in E3 as [-> _].
  apply bind_val in H as (? & ? & E4 & H). apply or_raise_val in E4 as [-> _].
  repeat split; discriminate.
Qed.

Lemma settings_parse_true (env : Env) (w : World) :
  settings_parse env w = true <->
  (time_of_val (setting (snapshot w) "lightsOnTime" (VStr "06:00")) <> None /\
   time_of_val (setting (snapshot w) "lightsOffTime" (VStr "22:00")) <> None) /\
  (forall k, py_float (cycler_on_duration k (snapshot w)) <> None /\
             py_float (cycler_off_duration k (snapshot w)) <> None) /\
  (fst (aggregate (dht_devices env)) <> None ->
   py_float (setting (snapshot w) "exhaustFanTempHigh" (VFloat (float_literal "27.0"))) <> None /\
   py_float (setting (snapshot w) "exhaustFanTempLow" (VFloat (float_literal "23.0"))) <> None /\
   py_float (setting (snapshot w) "exhaustFanHumidHigh" (VFloat (float_literal "65.0"))) <> None /\
   py_float (setting (snapshot w) "exhaustFanHumidLow" (VFloat (float_literal "55.0"))) <> None) /\
  py_float (setting (snapshot w) "maxFillTime" (VInt 600)) <> None.
Proof.
  unfold settings_parse.
  rewrite !andb_true_iff, !parses_time_true, !parses_float_true.
  destruct (aggregate_cases (dht_devices env)) as [Hn|(t & hu & Hs)].
  - rewrite Hn. simpl. split.
    + intros (((((((H1 & H2) & H3) & H4) & H5) & H6) & _) & H7).
      split; [split; assumption|]. split; [intros []; simpl; split; assumption|].
      split; [intros Hx; simpl in Hx; congruence | assumption].
    + intros ((H1 & H2) & Hk & _ & H7).
      destruct (Hk Pumps) as [H3 H4]. destruct (Hk CirculationFans) as [H5 H6].
      simpl in *. tauto.
  - rewrite Hs. simpl.
    rewrite !andb_true_iff, !parses_float_true. split.
    + intros (((((((H1 & H2) & H3) & H4) & H5) & H6) & (((H8 & H9) & H10) & H11)) & H7).
      split; [split; assumption|]. split; [intros []; simpl; split; assumption|].
      split; [intros _; auto | assumption].
    + intros ((H1 & H2) & Hk & Hth & H7).
      destruct (Hk Pumps) as [H3 H4]. destruct (Hk CirculationFans) as [H5 H6].
      destruct Hth as (H8 & H9 & H10 & H11); [discriminate|].
      simpl in *. tauto.
Qed.

Lemma keeps_cycle_lengths_lights (env : Env) (app : gmap string pyval) :
  keeps cycle_lengths (lights_control env app).
Proof.
  apply keeps_lights_control. intros pin d _.
  apply keeps_toggle_relay_blind. reflexivity.
Qed.

(** With the settings readable and parsed, the sensors readable and the
    bookkeeping lists complete, the tick runs to its end. *)
Lemma parsed_settings_complete (env : Env) (w : World) :
  io_ready env w -> settings_parse env w = true -> completes env w = true.
Proof.
  intros (Hdb & Hf & Hov & Hlen) Hp.
  apply settings_parse_true in Hp as ((Hon & Hoff) & Hk & Hth & Hmax).
  unfold completes, tick.
  assert (E0 : load_settings env w = (Val (snapshot w), w)).
  { unfold load_settings. rewrite Hdb. reflexivity. }
  rewrite (bind_step _ _ _ _ _ E0). unfold control.
  destruct (lights_control_total env (snapshot w) w Hon Hoff) as [w2 E1].
  rewrite (bind_step _ _ _ _ _ E1).
  assert (L2 : full_lengths w2).
  { pose proof (keeps_cycle_lengths_lights env (snapshot w) w) as K.
    rewrite E1 in K. simpl in K. unfold full_lengths in *. congruence. }
  destruct (cycle_control_runs env (snapshot w) Pumps (proj1 (Hk Pumps))
              (proj2 (Hk Pumps)) w2 L2) as ([] & w3 & E2 & L3).
  rewrite (bind_step _ _ _ _ _ E2).
  destruct (cycle_control_runs env (snapshot w) CirculationFans
              (proj1 (Hk CirculationFans)) (proj2 (Hk CirculationFans)) w3 L3)
    as ([] & w4 & E3 & L4).
  rewrite (bind_step _ _ _ _ _ E3).
  destruct (sensors_and_exhaust_total env (snapshot w) w4 Hth) as ([t hu] & w5 & E4).
  rewrite (bind_step _ _ _ _ _ E4).
  assert (Hs : forall q, q ∈ OVERFLOW_SENSOR_PIN :: FLOAT_SENSORS_PINS ->
                         GPIO_input env w5 q = GPIO_input env w q).
  { intros q Hq. eapply sensors_unchanged; eauto. }
  assert (Hf5 : water_levels_ok env w5 <> None).
  { unfold water_levels_ok, FLOAT_SENSORS_PINS in *. simpl in *.
    rewrite !Hs by (unfold OVERFLOW_SENSOR_PIN, FLOAT_SENSORS_PINS;
                    rewrite !elem_of_cons; auto 10).
    exact Hf. }
  assert (Hov5 : overflow_detected env w5 <> None).
  { unfold overflow_detected in *. rewrite Hs by left. exact Hov. }
  destruct (water_control_total env (snapshot w) w5 Hf5 Hov5 Hmax)
    as ([ok oks] & w6 & E5).
  rewrite (bind_step _ _ _ _ _ E5).
  destruct (log_sensor_data_total env t hu ok oks w6) as [w7 ->]. reflexivity.
Qed.

(** A tick that ran to its end parsed every typed setting it read. *)
Lemma complete_settings_parsed (env : Env) (w : World) :
  completes env w = true -> settings_parse env w = true.
Proof.
  intros Hc. apply settings_parse_true.
  apply completes_inv in Hc
    as (w2 & w3 & w4 & t & hu & w5 & ok & oks & w6 & _ & E1 & E2 & E3 & E4 & E5 & E6).
  split; [eapply lights_control_parses, E1|].
  split.
  { intros []; [eapply cycle_control_parses, E2 | eapply cycle_control_parses, E3]. }
  split; [eapply sensors_and_exhaust_parses, E4|].
  apply water_control_val in E5 as (max & ov & _ & _ & _ & Hmax & _). congruence.
Qed.

(** C3, as amended.  A key that is absent from the store reads as its
    hard-coded default, and the defaults parse.  A stored value is never
    replaced by the default: with the database, the sensors and the
    bookkeeping in order, the tick runs to its end iff every typed
    setting it reads parses; otherwise it is abandoned. *)
Theorem settings_decide_completion (env : Env) (w : World) :
  io_ready env w ->
  (forall key d, settings w !! key = None -> setting (snapshot w) key d = d) /\
  (settings w = ∅ -> settings_parse env w = true) /\
  (completes env w = true <-> settings_parse env w = true).
Proof.
  intros Hio. split; [|split].
  - intros key d Hnone. unfold setting, snapshot.
    rewrite lookup_fmap, Hnone. reflexivity.
  - intros Hempty. unfold settings_parse, parses_time, parses_float, setting, snapshot.
    rewrite Hempty, fmap_empty, !lookup_empty. simpl.
    destruct (aggregate (dht_devices env)) as [[?|] [?|]]; reflexivity.
  - split; [apply complete_settings_parsed | apply parsed_settings_complete, Hio].
Qed.

Lemma settings_decide_completion_witness :
  let env := sample_env 10 25 60 LOW LOW LOW HIGH in
  let w := update_settings [("maxFillTime", "6e2")] (boot 0) in
  io_ready env w /\ completes env w = true.
Proof.
  intros env w.
  assert (Hio : io_ready env w).
  { unfold io_ready. repeat split; vm_compute; congruence. }
  split; [exact Hio|].
  apply (proj2 (proj2 (proj2 (settings_decide_completion env w Hio)))).
  vm_compute. reflexivity.
Defined.

(** The claim C3 as stated fails: with [lightsOnTime] set to "abc", or
    [pumpOnDuration] set to "fast", the read does not evaluate to the
    default and a tick that runs to its end on the default settings is
    abandoned. *)
Lemma malformed_setting_aborts_tick :
  let env := sample_env 10 25 60 LOW LOW LOW HIGH in
  let w1 := update_settings [("lightsOnTime", "abc")] (boot 0) in
  let w2 := update_settings [("pumpOnDuration", "fast")] (boot 0) in
  completes env (boot 0) = true /\
  time_of_val (setting (snapshot w1) "lightsOnTime" (VStr "06:00")) = None /\
  time_of_val (VStr "06:00") = Some (mk_time 6 0 0 0) /\
  completes env w1 = false /\
  py_float (setting (snapshot w2) "pumpOnDuration" (VInt 900)) = None /\
  py_float (VInt 900) = Some (900 : pyfloat) /\
  completes env w2 = false.
Proof. vm_compute. repeat split; reflexivity. Qed.

(** Two more values that abandon the tick: a literal behind a control
    character that [int] and [float] do not skip, and an int beyond the
    range of the floats. *)
Example unconvertible_durations :
  let env := sample_env 10 25 60 LOW LOW LOW HIGH in
  let fs5 := String (ascii_of_nat 28) "5" in
  let huge := String "1" (string_of_list_ascii (replicate 400 "0"%char)) in
  convert_value fs5 = VStr fs5 /\ py_float (VStr fs5) = None /\
  convert_value huge = VInt (10 ^ 400) /\ py_float (VInt (10 ^ 400)) = None /\
  completes env (update_settings [("pumpOnDuration", fs5)] (boot 0)) = false /\
  completes env (update_settings [("pumpOnDuration", huge)] (boot 0)) = false.
Proof. vm_compute. repeat split; reflexivity. Qed.

(** * Further properties of the code *)

(** ** [toggle_relay] *)

(** X1. A second call of [toggle_relay] with the same arguments does
    nothing and gives the same answer. *)
Theorem toggle_relay_idempotent (env : Env) (pin : Z) (d : bool) (w : World) :
  toggle_relay env pin d (snd (toggle_relay env pin d w)) = toggle_relay env pin d w.
Proof.
  destruct w as [h g s r l j].
  unfold toggle_relay, GPIO_input, GPIO_output, set_gpio_out. simpl.
  destruct (g !! pin) as [lv|] eqn:E.
  - destruct d, lv; simpl; rewrite ?E, ?lookup_insert_eq; simpl;
      rewrite ?insert_insert_eq; reflexivity.
  - destruct (gpio_in env !! pin) as [lv|]; [|simpl; rewrite E; reflexivity].
    destruct d, lv; simpl; rewrite E; reflexivity.
Qed.

(** X2. [toggle_relay] never raises, writes nothing but the level of
    its own channel, sets up no channel, and on a channel that is not
    set up at all answers [False] and leaves the world as it is. *)
Theorem toggle_relay_frame (env : Env) (pin : Z) (d : bool) (w : World) :
  let r := toggle_relay env pin d w in
  (exists b, fst r = Val b) /\
  hardware_state (snd r) = hardware_state w /\
  settings (snd r) = settings w /\
  sensor_readings (snd r) = sensor_readings w /\
  latest_state (snd r) = latest_state w /\
  journal (snd r) = journal w /\
  (forall q, q <> pin -> gpio_out (snd r) !! q = gpio_out w !! q) /\
  dom (gpio_out (snd r)) = dom (gpio_out w) /\
  (gpio_out w !! pin = None -> snd r = w) /\
  (gpio_out w !! pin = None -> gpio_in env !! pin = None -> r = (Val false, w)).
Proof.
  destruct w as [h g s rd l j].
  unfold toggle_relay, GPIO_input, GPIO_output, set_gpio_out. simpl.
  destruct (g !! pin) as [lv|] eqn:E.
  - assert (Hd : forall x, dom (<[pin := x]> g) = dom g).
    { intros x. rewrite dom_insert_L. apply subseteq_union_1_L, singleton_subseteq_l.
      eapply elem_of_dom_2, E. }
    destruct d, lv; simpl; rewrite ?E; simpl;
      (split; [eauto|]); repeat split; try congruence; auto;
      intros q Hq; apply lookup_insert_ne; congruence.
  - destruct (gpio_in env !! pin) as [lv|]; [destruct d, lv|]; simpl; rewrite ?E; simpl;
      (split; [eauto|]); repeat split; try congruence; auto.
Qed.

(** ** The settings loader *)

(** X3. The numeric conversion of the loader never confuses a mode: for
    each mode literal the loop compares with, the comparison on the
    loaded value is the comparison of the stored string itself. *)
Theorem modes_survive_conversion (s : string) :
  Forall (fun lit => val_is (convert_value s) lit = String.eqb s lit)
    ["schedule"; "cycle"; "auto"; "on"; "off"; "fill"].
Proof.
  assert (H : forall lit, convert_value lit = VStr lit ->
                          val_is (convert_value s) lit = String.eqb s lit).
  { intros lit Hlit. destruct (String.eqb_spec s lit) as [->|Hne].
    - rewrite Hlit. simpl. apply String.eqb_refl.
    - unfold convert_value.
      destruct (bool_decide _); [destruct (float_of_str s) | destruct (int_of_str s)];
        simpl; try reflexivity; apply String.eqb_neq, Hne. }
  repeat constructor; apply H; reflexivity.
Qed.

(** ** The settings store *)

Lemma world_ext (a b : World) :
  hardware_state a = hardware_state b -> gpio_out a = gpio_out b ->
  settings a = settings b -> sensor_readings a = sensor_readings b ->
  latest_state a = latest_state b -> journal a = journal b -> a = b.
Proof. destruct a, b. simpl. congruence. Qed.

Lemma fold_insert_or_ignore {V : Type} (l : list (string * V)) (m : gmap string V) :
  fold_left (fun s kv => insert_or_ignore (fst kv) (snd kv) s) l m
  = m ∪ list_to_map l.
Proof.
  revert m. induction l as [|[k v] l IH]; intros m; simpl.
  - rewrite (right_id_L ∅ (∪)). reflexivity.
  - rewrite IH. unfold insert_or_ignore. apply map_eq. intros i.
    rewrite !lookup_union. destruct (m !! k) as [x|] eqn:E.
    + destruct (decide (k = i)) as [->|Hne].
      * rewrite E. simpl. destruct (list_to_map l !! i), (<[i:=v]> (list_to_map l) !! i);
          reflexivity.
      * rewrite lookup_insert_ne by exact Hne. reflexivity.
    + destruct (decide (k = i)) as [->|Hne].
      * rewrite !lookup_insert_eq, E. simpl.
        destruct (list_to_map l !! i); reflexivity.
      * rewrite !lookup_insert_ne by exact Hne. reflexivity.
Qed.

Lemma settings_init_db (w : World) :
  settings (init_db w) = settings w ∪ list_to_map default_settings.
Proof. unfold init_db. cbn [settings]. apply (fold_insert_or_ignore default_settings (settings w)). Qed.

Lemma latest_state_init_db (w : World) :
  latest_state (init_db w)
  = insert_or_ignore "sensors" (mk_row (float_of_int 0) (float_of_int 0) 0 0 0 0)
      (latest_state w).
Proof. reflexivity. Qed.

(** X4. [init_db] only adds what is missing: the settings afterwards are
    the stored ones completed by the defaults, so a value written by
    the user survives a restart, every default key is present, the row
    'sensors' exists, and running [init_db] again changes nothing. *)
Theorem init_db_completes (w : World) :
  settings (init_db w) = settings w ∪ list_to_map default_settings /\
  (forall key v, settings w !! key = Some v -> settings (init_db w) !! key = Some v) /\
  (forall key v, (key, v) ∈ default_settings -> is_Some (settings (init_db w) !! key)) /\
  is_Some (latest_state (init_db w) !! "sensors") /\
  init_db (init_db w) = init_db w.
Proof.
  assert (Hl : forall w0, is_Some (latest_state (init_db w0) !! "sensors")).
  { intros w0. rewrite latest_state_init_db. unfold insert_or_ignore.
    destruct (latest_state w0 !! "sensors") eqn:E; [rewrite E; eauto|].
    rewrite lookup_insert_eq. eauto. }
  split; [apply settings_init_db|]. split; [|split; [|split; [apply Hl|]]].
  - intros key v Hk. rewrite settings_init_db. apply lookup_union_Some_l, Hk.
  - intros key v Hin. rewrite settings_init_db, lookup_union.
    assert (H : is_Some ((list_to_map default_settings : gmap string string) !! key)).
    { apply elem_of_dom. rewrite dom_list_to_map_L. apply elem_of_list_to_set.
      apply list_elem_of_fmap. exists (key, v). auto. }
    destruct H as [x ->]. destruct (settings w !! key); simpl; eauto.
  - destruct (Hl w) as [row Hrow].
    assert (Hs : settings (init_db (init_db w)) = settings (init_db w)).
    { rewrite !settings_init_db. apply map_eq. intros i. rewrite !lookup_union.
      destruct (settings w !! i), (list_to_map default_settings !! i); reflexivity. }
    assert (Hls : latest_state (init_db (init_db w)) = latest_state (init_db w)).
    { rewrite (latest_state_init_db (init_db w)). unfold insert_or_ignore.
      rewrite Hrow. reflexivity. }
    apply world_ext; [reflexivity | reflexivity | exact Hs | reflexivity | exact Hls
                    | reflexivity].
Qed.

Lemma update_settings_lookup (data : list (string * string)) (s : gmap string string)
    (key : string) :
  fold_left (fun s kv => alter (fun _ => snd kv) (fst kv) s) data s !! key
  = last_write key data <$> s !! key.
Proof.
  unfold last_write. revert s. induction data as [|[k v] data IH]; intros s; simpl.
  - destruct (s !! key); reflexivity.
  - rewrite IH. destruct (String.eqb_spec k key) as [->|Hne].
    + rewrite lookup_alter_eq. destruct (s !! key); reflexivity.
    + rewrite lookup_alter_ne by exact Hne. reflexivity.
Qed.

(** X5. [update_settings] writes only rows that exist: a key that is not
    in the table is dropped without a trace, a key that is there gets
    the last value the request gives it, and no key is ever added or
    removed; the loop's state is not touched. *)
Theorem update_settings_existing_rows (data : list (string * string)) (w : World) :
  (forall key, settings (update_settings data w) !! key
               = last_write key data <$> settings w !! key) /\
  dom (settings (update_settings data w)) = dom (settings w) /\
  (forall key v, settings w !! key = None ->
                 settings (update_settings ((key, v) :: data) w) !! key = None) /\
  (forall key v old, settings w !! key = Some old ->
                     settings (update_settings (data ++ [(key, v)]) w) !! key = Some v) /\
  hardware_state (update_settings data w) = hardware_state w /\
  gpio_out (update_settings data w) = gpio_out w.
Proof.
  assert (H : forall d key, settings (update_settings d w) !! key
                            = last_write key d <$> settings w !! key).
  { intros d key. unfold update_settings. simpl. apply update_settings_lookup. }
  split; [apply H|]. split; [|split; [|split; [|split; reflexivity]]].
  - apply set_eq. intros key. rewrite !elem_of_dom, H.
    destruct (settings w !! key); simpl; split; intros [x Hx]; eauto; discriminate.
  - intros key v Hnone. rewrite H, Hnone. reflexivity.
  - intros key v old Hold. rewrite H, Hold. simpl. f_equal.
    unfold last_write. rewrite fold_left_app. simpl. rewrite String.eqb_refl. reflexivity.
Qed.

(** ** Ticks seen through any observation *)

Section AnyView.
Context {T : Type} (obs : World -> T) (env : Env).
Hypothesis Htoggle : forall pin d,
  pin ∈ relay_pins -> pin <> SOLENOID_RELAY_PIN -> keeps obs (toggle_relay env pin d).
Hypothesis Hflip : forall k i pin d,
  cycler_pins k !! i = Some pin -> keeps obs (cycler_flip env k i pin d).

Lemma keeps_lights_any (app : gmap string pyval) : keeps obs (lights_control env app).
Proof.
  apply keeps_lights_control. intros pin d Hpin.
  apply Htoggle; [apply in_relay_pins; tauto|].
  intros ->. revert Hpin. unfold LIGHTS_PINS, SOLENOID_RELAY_PIN.
  rewrite !elem_of_cons, elem_of_nil. lia.
Qed.

Lemma keeps_cycle_any (app : gmap string pyval) (k : cycler) :
  keeps obs (cycle_control env app k).
Proof.
  apply keeps_cycle_control. intros on off i pin Hpin.
  apply keeps_cycle_channel; [|intros d; apply Hflip, Hpin].
  intros d. apply Htoggle; [eapply cycler_pin_relay, Hpin|].
  eapply cycler_pin_not_solenoid, Hpin.
Qed.

Lemma keeps_sensors_any (app : gmap string pyval) :
  keeps obs (sensors_and_exhaust env app).
Proof.
  apply keeps_sensors_and_exhaust. intros pin d Hpin.
  apply Htoggle; [apply in_relay_pins; tauto|].
  intros ->. revert Hpin. unfold EXHAUST_FANS_PINS, SOLENOID_RELAY_PIN.
  rewrite !elem_of_cons, elem_of_nil. lia.
Qed.

(** A tick that is abandoned left alone whatever sections 1 to 4 leave
    alone: it never got as far as the water engine. *)
Lemma tick_abandoned_any (w : World) :
  completes env w = false -> obs (after_tick env w) = obs w.
Proof.
  unfold completes, after_tick, tick.
  run_bind E0.
  2:{ intros _. simpl. pose proof (keeps_load_settings obs env w) as K.
      rewrite E0 in K. exact K. }
  apply load_settings_val in E0 as (_ & -> & ->). unfold control.
  run_bind E1.
  2:{ intros _. pose proof (keeps_lights_any (snapshot w) w) as K.
      rewrite E1 in K. exact K. }
  pose proof (keeps_lights_any (snapshot w) w) as K1. rewrite E1 in K1. simpl in K1.
  run_bind E2.
  2:{ intros _. pose proof (keeps_cycle_any (snapshot w) Pumps w0) as K.
      rewrite E2 in K. simpl in *. congruence. }
  pose proof (keeps_cycle_any (snapshot w) Pumps w0) as K2. rewrite E2 in K2.
  simpl in K2.
  run_bind E3.
  2:{ intros _. pose proof (keeps_cycle_any (snapshot w) CirculationFans w1) as K.
      rewrite E3 in K. simpl in *. congruence. }
  pose proof (keeps_cycle_any (snapshot w) CirculationFans w1) as K3.
  rewrite E3 in K3. simpl in K3.
  run_bind E4.
  2:{ intros _. pose proof (keeps_sensors_any (snapshot w) w2) as K.
      rewrite E4 in K. simpl in *. congruence. }
  pose proof (keeps_sensors_any (snapshot w) w2) as K4. rewrite E4 in K4. simpl in K4.
  destruct a2 as [t hu].
  run_bind E5.
  2:{ intros _. apply water_control_raise in E5 as ->. simpl. congruence. }
  destruct a2 as [ok oks].
  destruct (log_sensor_data_total env t hu ok oks w4) as [w6 E6]. rewrite E6.
  discriminate.
Qed.

(** A tick that runs to its end is, for [obs], the water engine
    followed by the telemetry step. *)
Lemma tick_completed_any (w : World) :
  completes env w = true ->
  exists w5 w6 max oks ov,
    obs w5 = obs w /\
    max_fill_time w = Some max /\
    water_levels_ok env w = Some oks /\
    overflow_detected env w = Some ov /\
    water_view w5 = water_view w /\
    water_engine env (water_mode w) max (forallb id oks) ov w5 = (Val tt, w6) /\
    log_sensor_data env (fst (aggregate (dht_devices env)))
      (snd (aggregate (dht_devices env))) (forallb id oks) oks w6
    = (Val tt, after_tick env w).
Proof.
  intros Hc.
  destruct (tick_completed_water env w Hc) as (_ & max' & oks' & ov' & _ & Hm & Ho & Hv & _).
  apply completes_inv in Hc
    as (w2 & w3 & w4 & t & hu & w5 & ok & oks & w6 & _ & E1 & E2 & E3 & E4 & E5 & E6).
  pose proof (keeps_lights_any (snapshot w) w) as K1. rewrite E1 in K1.
  pose proof (keeps_cycle_any (snapshot w) Pumps w2) as K2. rewrite E2 in K2.
  pose proof (keeps_cycle_any (snapshot w) CirculationFans w3) as K3. rewrite E3 in K3.
  pose proof (keeps_sensors_any (snapshot w) w4) as K4. rewrite E4 in K4.
  simpl in *.
  assert (Hs : forall q, q ∈ OVERFLOW_SENSOR_PIN :: FLOAT_SENSORS_PINS ->
                         GPIO_input env w5 q = GPIO_input env w q).
  { intros q Hq. eapply sensors_unchanged; eauto. }
  assert (Hview : water_view w5 = water_view w).
  { eapply (actuators_keep water_view); eauto.
    - intros pin d _ Hne. apply keeps_water_view_toggle, Hne.
    - intros k i pin d Hpin. apply keeps_water_view_flip, Hpin. }
  assert (Hagg : aggregate (dht_devices env) = (t, hu)).
  { unfold sensors_and_exhaust in E4.
    destruct (aggregate_cases (dht_devices env)) as [Ha|(t' & hu' & Ha)];
      rewrite Ha in *;
      [|repeat (apply bind_val in E4 as (? & ? & _ & E4))];
      unfold ret in E4; congruence. }
  apply water_control_val in E5 as (max & ov & Hoks & -> & Hov & Hmax & E5).
  assert (oks = oks').
  { unfold water_levels_ok, FLOAT_SENSORS_PINS in *. simpl in *.
    rewrite !Hs in Hoks by (unfold OVERFLOW_SENSOR_PIN, FLOAT_SENSORS_PINS;
                            rewrite !elem_of_cons; auto 10).
    congruence. }
  assert (ov = ov').
  { unfold overflow_detected in *. rewrite Hs in Hov by left. congruence. }
  assert (max = max') by (unfold max_fill_time in Hm; congruence).
  subst oks' ov' max'.
  exists w5, w6, max, oks, ov. rewrite Hagg. simpl.
  repeat split; try assumption; congruence.
Qed.

End AnyView.

(** ** What the ticks leave alone *)

(** X6. A tick that is abandoned attempts no telemetry transaction and
    leaves the two telemetry tables and [last_sensor_log_time] as they
    were. *)
Theorem abandoned_tick_logs_nothing (env : Env) (w : World) :
  completes env w = false -> telemetry_view (after_tick env w) = telemetry_view w.
Proof.
  apply tick_abandoned_any.
  - intros pin d _ _. apply keeps_toggle_relay_blind. reflexivity.
  - intros k i pin d _. apply keeps_cycler_flip_blind.
    + apply keeps_toggle_relay_blind. reflexivity.
    + intros l w'. destruct k; reflexivity.
    + intros l w'. destruct k; reflexivity.
Qed.

Lemma abandoned_tick_logs_nothing_witness :
  let w := update_settings [("maxFillTime", "abc")] (boot 0) in
  let env := sample_env 10 25 60 LOW LOW LOW HIGH in
  completes env w = false /\ telemetry_view (after_tick env w) = telemetry_view w.
Proof.
  intros w env.
  assert (H : completes env w = false) by (vm_compute; reflexivity).
  split; [exact H | exact (abandoned_tick_logs_nothing env w H)].
Defined.

(** X7. The loop writes one setting only: whatever a tick does, every
    row other than [waterSystemMode] keeps its value, no row is added
    or removed, and so it is over any run of ticks. *)
Theorem ticks_keep_settings (envs : list Env) (w : World) (key : string) :
  key <> "waterSystemMode" ->
  settings (run_hardware_loop envs w) !! key = settings w !! key.
Proof.
  intros Hkey. revert w. induction envs as [|env envs IH]; intros w; simpl; [reflexivity|].
  rewrite IH. apply (tick_keeps (fun w0 => settings w0 !! key)).
  - intros pin d _. apply keeps_toggle_relay_blind. reflexivity.
  - intros k on off i pin _. apply keeps_cycle_channel.
    + intros d. apply keeps_toggle_relay_blind. reflexivity.
    + intros d. apply keeps_cycler_flip_blind.
      * apply keeps_toggle_relay_blind. reflexivity.
      * intros l w'. destruct k; reflexivity.
      * intros l w'. destruct k; reflexivity.
  - intros mode max ok ov. apply keeps_water_engine.
    + intros d. apply keeps_toggle_relay_blind. reflexivity.
    + intros e. apply keeps_modify_hw. reflexivity.
    + intros b. apply keeps_modify_hw. reflexivity.
    + intros t. apply keeps_modify_hw. reflexivity.
    + intros w'. unfold reset_water_mode. destruct (db_reset_ok env); simpl;
        [apply lookup_alter_ne; congruence | reflexivity].
  - intros t hu ok oks. apply keeps_log_sensor_data.
    + intros row w'. unfold db_log. destruct (db_log_ok env); reflexivity.
    + intros x. apply keeps_modify_hw. reflexivity.
Qed.

Lemma ticks_keep_settings_witness :
  let w := update_settings [("waterSystemMode", "fill")] (boot 0) in
  let envs := [sample_env 10 25 60 LOW LOW LOW HIGH; sample_env 12 25 60 LOW LOW LOW HIGH] in
  settings (run_hardware_loop envs w) !! "waterSystemMode" = Some "auto" /\
  settings w !! "waterSystemMode" = Some "fill" /\
  settings (run_hardware_loop envs w) !! "maxFillTime" = settings w !! "maxFillTime".
Proof.
  intros w envs. split; [vm_compute; reflexivity|]. split; [vm_compute; reflexivity|].
  apply (ticks_keep_settings envs w "maxFillTime"). discriminate.
Defined.

(** ** The latest reading *)

Lemma tick_keeps_latest_row (env : Env) (w : World) :
  is_Some (latest_state w !! "sensors") ->
  is_Some (latest_state (after_tick env w) !! "sensors").
Proof.
  pose (has_row := fun w0 : World =>
          match latest_state w0 !! "sensors" with Some _ => true | None => false end).
  assert (H : has_row (after_tick env w) = has_row w).
  { apply (tick_keeps has_row).
    - intros pin d _. apply keeps_toggle_relay_blind. reflexivity.
    - intros k on off i pin _. apply keeps_cycle_channel.
      + intros d. apply keeps_toggle_relay_blind. reflexivity.
      + intros d. apply keeps_cycler_flip_blind.
        * apply keeps_toggle_relay_blind. reflexivity.
        * intros l w'. destruct k; reflexivity.
        * intros l w'. destruct k; reflexivity.
    - intros mode max ok ov. apply keeps_water_engine.
      + intros d. apply keeps_toggle_relay_blind. reflexivity.
      + intros e. apply keeps_modify_hw. reflexivity.
      + intros b. apply keeps_modify_hw. reflexivity.
      + intros t. apply keeps_modify_hw. reflexivity.
      + intros w'. unfold reset_water_mode. destruct (db_reset_ok env); reflexivity.
    - intros t hu ok oks. apply keeps_log_sensor_data.
      + intros row w'. unfold db_log, has_row. destruct (db_log_ok env); simpl;
          [|reflexivity].
        rewrite lookup_alter_eq. destruct (latest_state w' !! "sensors"); reflexivity.
      + intros x. apply keeps_modify_hw. reflexivity. }
  unfold has_row in H. intros [row Hrow]. rewrite Hrow in H.
  destruct (latest_state (after_tick env w) !! "sensors"); [eauto | discriminate].
Qed.

(** X8. From start-up on, [get_latest_sensors] always finds its row:
    it never answers 404, and the error it reports is the water error
    of the loop. *)
Theorem latest_sensors_always_answers (w : World) :
  reachable w ->
  exists row, get_latest_sensors w = Some (row, water_error (hardware_state w)).
Proof.
  intros Hr.
  assert (H : is_Some (latest_state w !! "sensors")).
  { induction Hr as [t | env w Hr IH | data w Hr IH].
    - unfold boot, init_db, insert_or_ignore. cbn [latest_state].
      rewrite lookup_empty, lookup_insert_eq. eauto.
    - apply tick_keeps_latest_row, IH.
    - exact IH. }
  destruct H as [row Hrow]. exists row. unfold get_latest_sensors. rewrite Hrow.
  reflexivity.
Qed.

Lemma latest_sensors_always_answers_witness :
  let w := after_tick (sample_env 10 25 60 LOW HIGH LOW HIGH) (boot 0) in
  get_latest_sensors w = Some (mk_row 25 60 0 1 0 1, None) /\
  exists row, get_latest_sensors w = Some (row, water_error (hardware_state w)).
Proof.
  intros w. split; [vm_compute; reflexivity|].
  exact (latest_sensors_always_answers w (reach_tick _ _ (reach_boot 0))).
Defined.
